(** * glpi-sdk-python: the service client and the generic router

    A shallow embedding of [glpi/glpi.py]: the helpers that clean request
    arguments, [GlpiService] (session token, [request], the item helpers)
    and [GLPI] (the router that shares one client between item types).

    Python objects are modelled by explicit state passing.  A method of
    [GlpiService] is a function of the object's fields and of the world
    (the HTTP calls issued so far, what was printed, the response object
    in use); an exception is a result of its own, and the state reached
    when it is raised is kept, as in Python. *)

From Stdlib Require Import ZArith Ascii String List Bool Lia.
From stdpp Require Import base option list gmap strings pretty fin_maps.

Set Warnings "-register-all".

Open Scope string_scope.
Open Scope Z_scope.

(** ** Python values *)

(** The values that flow through the client: [None], booleans, integers,
    byte strings (Python 2 [str]; [unicode] is not told apart), lists and
    dictionaries with string keys. *)
Inductive value : Type :=
| VNone
| VBool (b : bool)
| VInt (z : Z)
| VStr (s : string)
| VList (l : list value)
| VDict (d : gmap string value).

Abbreviation pydict := (gmap string value).

(** [v is None] *)
Definition is_none (v : value) : bool :=
  match v with VNone => true | _ => false end.

(** [v == s] for a string literal [s] *)
Definition eq_str (v : value) (s : string) : bool :=
  match v with VStr s' => bool_decide (s' = s) | _ => false end.

(** Truth value of an object, as [if v:] tests it. *)
Definition truthy (v : value) : bool :=
  match v with
  | VNone => false
  | VBool b => b
  | VInt z => negb (z =? 0)
  | VStr s => negb (bool_decide (s = EmptyString))
  | VList l => match l with [] => false | _ => true end
  | VDict d => negb (bool_decide (d = ∅))
  end.

(** ** Exceptions *)

Inductive exn : Type :=
| GlpiException (msg : string)
| GlpiInvalidArgument (msg : string)
| KeyError (key : value)
| TypeError
| AttributeError
| ValueError
| IndexError
| TransportError
| WrappedException (prefix : string) (cause : exn).

(** [GlpiInvalidArgument] is declared as a subclass of [GlpiException]. *)
Definition is_GlpiException (e : exn) : bool :=
  match e with
  | GlpiException _ | GlpiInvalidArgument _ => true
  | _ => false
  end.

Inductive result (A : Type) : Type :=
| Ok (a : A)
| Raise (e : exn).
Arguments Ok {A} a.
Arguments Raise {A} e.

Definition rbind {A B} (r : result A) (k : A -> result B) : result B :=
  match r with Ok a => k a | Raise e => Raise e end.

(** ** Strings *)

Module PyStr.

(** [str.lower] on a byte string: the letters A-Z are folded. *)
Definition lower_ascii (c : ascii) : ascii :=
  let n := nat_of_ascii c in
  if (Nat.leb 65 n && Nat.leb n 90)%bool then ascii_of_nat (n + 32) else c.

Fixpoint lower (s : string) : string :=
  match s with
  | EmptyString => EmptyString
  | String c s' => String (lower_ascii c) (lower s')
  end.

(** [needle in hay] for two strings *)
Fixpoint contains (needle hay : string) : bool :=
  if String.prefix needle hay then true
  else match hay with
       | EmptyString => false
       | String _ hay' => contains needle hay'
       end.

(** [str(n)] for an integer *)
Definition of_Z (z : Z) : string := pretty z.

End PyStr.

(** ** Operations on values *)

Module Py.

(** [v[k]] for a string key: a lookup in a dictionary, a [KeyError]
    when the key is missing, a [TypeError] on anything else. *)
Definition getitem (v : value) (k : string) : result value :=
  match v with
  | VDict d => match d !! k with Some x => Ok x | None => Raise (KeyError (VStr k)) end
  | _ => Raise TypeError
  end.

(** [v[0]] *)
Definition getitem0 (v : value) : result value :=
  match v with
  | VList (x :: _) => Ok x
  | VList [] => Raise IndexError
  | VStr (String c _) => Ok (VStr (String c EmptyString))
  | VStr EmptyString => Raise IndexError
  | VDict _ => Raise (KeyError (VInt 0))
  | _ => Raise TypeError
  end.

(** [k in v] for a string [k]: a key of a dictionary, an element of a
    list, a substring of a string; a [TypeError] on the rest. *)
Definition contains (k : string) (v : value) : result bool :=
  match v with
  | VDict d => Ok (bool_decide (is_Some (d !! k)))
  | VList l => Ok (existsb (fun x => eq_str x k) l)
  | VStr s => Ok (PyStr.contains k s)
  | _ => Raise TypeError
  end.

(** ['literal' + v] *)
Definition add_str (prefix : string) (v : value) : result string :=
  match v with
  | VStr s => Ok (prefix +:+ s)
  | _ => Raise TypeError
  end.

Definition isinstance_dict (v : value) : bool :=
  match v with VDict _ => true | _ => false end.

(** [l[i]] on a sequence: negative indices count from the end. *)
Definition index {A} (l : list A) (i : Z) : option A :=
  let n := Z.of_nat (length l) in
  if 0 <=? i then l !! Z.to_nat i
  else if - n <=? i then l !! Z.to_nat (n + i)
  else None.

Definition of_index (o : option value) : result value :=
  match o with Some x => Ok x | None => Raise IndexError end.

Definition chars (s : string) : list value :=
  map (fun c => VStr (String c EmptyString)) (list_ascii_of_string s).

(** [d[key]] for any key.  Dictionaries have string keys only, so any
    other hashable key is missing; lists and dictionaries are not
    hashable. *)
Definition getitem_val (d key : value) : result value :=
  match d, key with
  | VDict _, VStr k => getitem d k
  | VDict _, (VList _ | VDict _) => Raise TypeError
  | VDict _, _ => Raise (KeyError key)
  | VList l, VInt i => of_index (index l i)
  | VList l, VBool b => of_index (index l (if b then 1 else 0))
  | VStr s, VInt i => of_index (index (chars s) i)
  | VStr s, VBool b => of_index (index (chars s) (if b then 1 else 0))
  | _, _ => Raise TypeError
  end.

End Py.

(** ** Cleaning request arguments *)

Definition not_null (kv : string * value) : Prop := is_none kv.2 = false.

#[global] Instance not_null_dec kv : Decision (not_null kv) :=
  decide (is_none kv.2 = false).

Definition _remove_null_values (dictionary : value) : value :=
  match dictionary with
  | VDict d => VDict (filter not_null d)
  | _ => dictionary
  end.

Definition _cleanup_param_value (v : value) : value :=
  match v with
  | VBool b => VStr (if b then "true" else "false")
  | _ => v
  end.

Definition _cleanup_param_values (dictionary : value) : value :=
  match dictionary with
  | VDict d => VDict (_cleanup_param_value <$> d)
  | _ => dictionary
  end.

(** ** The case-insensitive header map of the HTTP library

    [requests.structures.CaseInsensitiveDict] keeps, under the lower-cased
    key, the key as it was last written and its value. *)

Module CaseInsensitiveDict.

Abbreviation t := (gmap string (string * value)).

Definition setitem (k : string) (v : value) (m : t) : t :=
  <[PyStr.lower k := (k, v)]> m.

Definition get (k : string) (m : t) : option value :=
  snd <$> m !! PyStr.lower k.

(** [m.update(d)], the entries of [d] written one after the other *)
Definition update (entries : list (string * value)) (m : t) : t :=
  foldl (fun acc kv => setitem kv.1 kv.2 acc) m entries.

Definition singleton (k : string) (v : value) : t := setitem k v ∅.

End CaseInsensitiveDict.

(** ** HTTP requests and responses *)

Inductive headers : Type :=
| PlainHeaders (d : pydict)
| CIHeaders (m : CaseInsensitiveDict.t).

Inductive auth : Type :=
| NoAuth
| AuthObject (a : value)
| AuthPair (user pass : value).

(** The keyword arguments of [requests.request] that the client can set. *)
Record http_request : Type := {
  req_method : string;
  req_url : string;
  req_headers : headers;
  req_params : value;
  req_data : value;
  req_json : value;
  req_files : value;
  req_auth : auth;
  req_kwargs : pydict
}.

(** A response: its status code and what [response.json()] gives
    ([None] when the body is not JSON and [json()] raises). *)
Record http_response : Type := {
  status_code : Z;
  json : option value
}.

Definition set_status_code (c : Z) (r : http_response) : http_response :=
  {| status_code := c; json := json r |}.

(** ** What the code takes from outside *)

Class Platform : Type := {
  (** [version.__version__] *)
  __version__ : string;
  (** iteration order of a dictionary: unspecified, but each entry once *)
  items : pydict -> list (string * value);
  items_perm : forall d, items d ≡ₚ map_to_list d;
  (** [str(v)] on lists and dictionaries *)
  repr_container : value -> string;
  (** [requests.request]: the answer may depend on the calls made before *)
  transport : list http_request -> http_request -> result http_response;
  (** [os.getenv("VCAP_SERVICES")] and [json.loads] *)
  getenv_VCAP_SERVICES : option string;
  json_loads : string -> result value;
  (** [lower()] on the text of a search.  What [response.json()] gives
      is [unicode], whose [lower()] folds every cased letter, not A-Z
      alone; such a string is held as its UTF-8 bytes, on which [in] is
      the same test as on the characters. *)
  text_lower : string -> string
}.

(** ** The world and the monad of methods *)

Record world : Type := {
  log : list http_request;
  stdout : list string;
  response : option http_response
}.

Definition world0 : world := {| log := []; stdout := []; response := None |}.

Definition M (S A : Type) : Type := S -> result A * S.

Definition ret {S A} (a : A) : M S A := fun s => (Ok a, s).

Definition raise {S A} (e : exn) : M S A := fun s => (Raise e, s).

Definition bind {S A B} (m : M S A) (k : A -> M S B) : M S B :=
  fun s => match m s with
           | (Ok a, s') => k a s'
           | (Raise e, s') => (Raise e, s')
           end.

(** [try: m except Exception as e: h e] *)
Definition try_except {S A} (m : M S A) (h : exn -> M S A) : M S A :=
  fun s => match m s with
           | (Ok a, s') => (Ok a, s')
           | (Raise e, s') => h e s'
           end.

Definition lift {S A} (r : result A) : M S A := fun s => (r, s).

Definition gets {S A} (f : S -> A) : M S A := fun s => (Ok (f s), s).

Definition modify {S} (f : S -> S) : M S unit := fun s => (Ok tt, f s).

Declare Scope py_scope.
Delimit Scope py_scope with py.
Notation "x <~ m ;; k" := (bind m (fun x => k))
  (at level 100, m at next level, right associativity) : py_scope.
Notation "m ;;; k" := (bind m (fun _ => k))
  (at level 100, right associativity) : py_scope.
Open Scope py_scope.

(** What a method hands back: a Python value or the response object. *)
Inductive pyobj : Type :=
| Val (v : value)
| Resp (r : http_response).

(** The messages of the constructor. *)
Definition missing_app_token : string :=
  "You must specify GLPI API-Token(app_token) to make API calls".

Definition missing_credentials : string :=
  "You must specify your username and password, or token_authservice credentials ".

(** ** GlpiService *)

Module Service.
Section WithPlatform.
Context `{Platform}.

Record t : Type := {
  url : value;
  app_token : value;
  uri : option string;
  username : value;
  password : value;
  token_auth : value;
  session : value
}.

Definition state : Type := t * world.

Definition self : M state t := gets fst.

Definition update_self (f : t -> t) : M state unit :=
  modify (fun st => (f st.1, st.2)).

Definition with_url (v : value) (s : t) : t :=
  {| url := v; app_token := app_token s; uri := uri s;
     username := username s; password := password s;
     token_auth := token_auth s; session := session s |}.

Definition with_app_token (v : value) (s : t) : t :=
  {| url := url s; app_token := v; uri := uri s;
     username := username s; password := password s;
     token_auth := token_auth s; session := session s |}.

Definition with_username (v : value) (s : t) : t :=
  {| url := url s; app_token := app_token s; uri := uri s;
     username := v; password := password s;
     token_auth := token_auth s; session := session s |}.

Definition with_password (v : value) (s : t) : t :=
  {| url := url s; app_token := app_token s; uri := uri s;
     username := username s; password := v;
     token_auth := token_auth s; session := session s |}.

Definition with_token_auth (v : value) (s : t) : t :=
  {| url := url s; app_token := app_token s; uri := uri s;
     username := username s; password := password s;
     token_auth := v; session := session s |}.

Definition with_session (v : value) (s : t) : t :=
  {| url := url s; app_token := app_token s; uri := uri s;
     username := username s; password := password s;
     token_auth := token_auth s; session := v |}.

(** [requests.request(...)]: the call is recorded and the response
    object becomes the one in use. *)
Definition http (req : http_request) : M state http_response :=
  fun st =>
    let w := st.2 in
    match transport (log w) req with
    | Ok r => (Ok r, (st.1, {| log := log w ++ [req]; stdout := stdout w;
                               response := Some r |}))
    | Raise e => (Raise e, (st.1, {| log := log w ++ [req]; stdout := stdout w;
                                     response := response w |}))
    end.

(** [response.status_code = c] *)
Definition assign_status_code (c : Z) : M state unit :=
  modify (fun st => (st.1, {| log := log st.2; stdout := stdout st.2;
                              response := set_status_code c <$> response st.2 |})).

(** [response.json()] *)
Definition response_json (r : http_response) : result value :=
  match json r with Some v => Ok v | None => Raise ValueError end.

(** *** Credentials *)

Definition set_username_and_password (username password : value) (s : t) : t :=
  let username := if eq_str username "YOUR SERVICE USERNAME" then VNone else username in
  let password := if eq_str password "YOUR SERVICE PASSWORD" then VNone else password in
  with_password password (with_username username s).

Definition set_token_auth (token_auth : value) (s : t) : t :=
  let token_auth := if eq_str token_auth "YOUR AUTH TOKEN" then VNone else token_auth in
  with_token_auth token_auth s.

Definition set_uri (u : option string) (s : t) : t :=
  {| url := url s; app_token := app_token s; uri := u;
     username := username s; password := password s;
     token_auth := token_auth s; session := session s |}.

(** [k in services] and [services[k]] when [k] may be [None] *)
Definition contains_name (k : option string) (v : value) : result bool :=
  match k with
  | Some k => Py.contains k v
  | None => match v with
            | VDict _ => Ok false
            | VList l => Ok (existsb is_none l)
            | _ => Raise TypeError
            end
  end.

Definition getitem_name (v : value) (k : option string) : result value :=
  match k with
  | Some k => Py.getitem v k
  | None => match v with
            | VDict _ => Raise (KeyError VNone)
            | _ => Raise TypeError
            end
  end.

Definition load_from_vcap_services (service_name : option string) : result value :=
  match getenv_VCAP_SERVICES with
  | Some vcap_services =>
      rbind (json_loads vcap_services) (fun services =>
      rbind (contains_name service_name services) (fun found =>
      if found : bool then
        rbind (getitem_name services service_name) (fun l =>
        rbind (Py.getitem0 l) (fun first =>
        Py.getitem first "credentials"))
      else Ok VNone))
  | None => Ok VNone
  end.

(** The assignment [self.f = creds[k]] guarded by [if k in creds]. *)
Definition take_credential (creds : pydict) (k : string)
    (setter : value -> t -> t) (s : t) : t :=
  match creds !! k with Some v => setter v s | None => s end.

Definition wants_vcap (use_vcap_services : bool) (s : t) : bool :=
  use_vcap_services && negb (truthy (username s)) && negb (truthy (token_auth s)).

Definition lacks_app_token (s : t) : bool := is_none (app_token s).

Definition lacks_credentials (s : t) : bool :=
  (is_none (username s) || is_none (password s)) && is_none (token_auth s).

(** The constructor, block by block: the credentials are taken from the
    arguments, then from the environment when asked for and still
    missing, and the result is checked. *)
Definition choose_credentials (username password token_auth : value) (s0 : t)
    : result t :=
  if negb (is_none token_auth) then
    if negb (is_none username) || negb (is_none password) then
      Raise (GlpiInvalidArgument
               "Cannot set token_auth and username and password together")
    else Ok (set_token_auth token_auth s0)
  else Ok (set_username_and_password username password s0).

Definition vcap_credentials (use_vcap_services : bool)
    (vcap_services_name : option string) (s1 : t) : result t :=
  if wants_vcap use_vcap_services s1 then
    rbind (load_from_vcap_services vcap_services_name) (fun creds =>
    match creds with
    | VDict c =>
        match c !! "url" with
        | None => Raise (KeyError (VStr "url"))
        | Some u =>
            Ok (take_credential c "app_token" with_app_token
               (take_credential c "token_auth" with_token_auth
               (take_credential c "password" with_password
               (take_credential c "username" with_username
               (with_url u s1)))))
        end
    | _ => Ok s1
    end)
  else Ok s1.

Definition check_credentials (s2 : t) : result t :=
  if lacks_app_token s2 then Raise (GlpiException missing_app_token)
  else if lacks_credentials s2 then Raise (GlpiException missing_credentials)
  else Ok s2.

Definition __init__ (url_apirest token_app : value) (uri : option string)
    (username password token_auth : value)
    (use_vcap_services : bool) (vcap_services_name : option string) : result t :=
  let s0 := {| url := url_apirest; app_token := token_app; uri := uri;
               username := username; password := password;
               token_auth := token_auth; session := VNone |} in
  rbind (choose_credentials username password token_auth s0) (fun s1 =>
  rbind (vcap_credentials use_vcap_services vcap_services_name s1)
        check_credentials).

(** *** Session token *)

(** [a + b] where [b] is a string or [None]: both must be strings. *)
Definition concat (a : value) (b : option string) : result string :=
  match a, b with
  | VStr x, Some y => Ok (x +:+ y)
  | _, _ => Raise TypeError
  end.

Definition init_session_request (full_url : string) (s : t) : http_request :=
  {| req_method := "GET";
     req_url := full_url;
     req_headers := PlainHeaders
                      (<["App-Token" := app_token s]>
                         {["Content-Type" := VStr "application/json"]});
     req_params := VNone; req_data := VNone; req_json := VNone; req_files := VNone;
     req_auth := if negb (is_none (token_auth s)) then AuthObject (token_auth s)
                 else AuthPair (username s) (password s);
     req_kwargs := ∅ |}.

Definition set_session_token : M state bool :=
  s <~ self ;;
  full_url <~ lift (concat (url s) (Some "/initSession")) ;;
  r <~ http (init_session_request full_url s) ;;
  try_except
    (body <~ lift (response_json r) ;;
     tok <~ lift (Py.getitem body "session_token") ;;
     update_self (with_session tok) ;;;
     ret true)
    (fun e => raise (WrappedException "Unable to init session in GLPI server: " e)).

Definition get_session_token : M state value :=
  s <~ self ;;
  if negb (is_none (session s)) then ret (session s)
  else
    ok <~ set_session_token ;;
    if ok : bool then (s' <~ self ;; ret (session s'))
    else ret (VStr "Unable to get Session Token").

Definition update_session_token (session_id : value) : M state value :=
  (if truthy session_id then update_self (with_session session_id) else ret tt) ;;;
  s <~ self ;;
  ret (session s).

(** *** Error messages *)

(** The [if]/[elif] chain that picks the message; an exception leaves
    the message as it was. *)
Definition error_message_head (error_json : value) : result string :=
  rbind (Py.contains "error" error_json) (fun has_error =>
  if has_error : bool then
    rbind (Py.getitem error_json "error") (fun err =>
    rbind (if Py.isinstance_dict err then Py.contains "description" err
           else Ok false) (fun nested =>
    if nested : bool then
      rbind (Py.getitem err "description") (Py.add_str "Error: ")
    else Py.add_str "Error: " err))
  else
  rbind (Py.contains "error_message" error_json) (fun has_error_message =>
  if has_error_message : bool then
    rbind (Py.getitem error_json "error_message") (Py.add_str "Error: ")
  else
  rbind (Py.contains "msg" error_json) (fun has_msg =>
  if has_msg : bool then
    rbind (Py.getitem error_json "msg") (Py.add_str "Error: ")
  else
  rbind (Py.contains "statusInfo" error_json) (fun has_status_info =>
  if has_status_info : bool then
    rbind (Py.getitem error_json "statusInfo") (Py.add_str "Error: ")
  else Ok "Unknown error")))).

(** [if 'description' in error_json: error_message += ...] *)
Definition error_message_description (error_json : value) (error_message : string)
    : result string :=
  rbind (Py.contains "description" error_json) (fun has_description =>
  if has_description : bool then
    rbind (Py.getitem error_json "description")
          (Py.add_str (error_message +:+ ", Description: "))
  else Ok error_message).

Definition _get_error_message (response : http_response) : string :=
  let error_message := "Unknown error" in
  match response_json response with
  | Raise _ => error_message
  | Ok error_json =>
      match error_message_head error_json with
      | Raise _ => error_message
      | Ok error_message =>
          match error_message_description error_json error_message with
          | Raise _ => error_message
          | Ok error_message =>
              error_message +:+ ", Code: " +:+ PyStr.of_Z (status_code response)
          end
      end
  end.

(** *** request *)

(** The arguments after lines 263-268 of [request]. *)
Record cleaned : Type := {
  c_params : value;
  c_json : value;
  c_data : value;
  c_files : value
}.

Definition clean_arguments (params json data files : value) : cleaned :=
  let params := _remove_null_values params in
  let params := _cleanup_param_values params in
  let json := _remove_null_values json in
  let data := _remove_null_values data in
  let files := _remove_null_values files in
  {| c_params := params; c_json := json; c_data := data; c_files := files |}.

Definition input_headers (headers : pydict) : pydict :=
  if truthy (VDict headers) then
    match _remove_null_values (VDict headers) with
    | VDict d => d
    | _ => ∅
    end
  else ∅.

Definition user_agent : value := VStr ("glpi-sdk-python-" +:+ __version__).

(** The header map before the session token is known. *)
Definition base_headers (accept_json : bool) : CaseInsensitiveDict.t :=
  let headers := CaseInsensitiveDict.singleton "user-agent" user_agent in
  if accept_json then
    CaseInsensitiveDict.setitem "accept" (VStr "application/json") headers
  else headers.

(** The three [headers.update] calls, in the order of the source. *)
Definition final_headers (accept_json : bool) (session app_token : value)
    (input : pydict) : CaseInsensitiveDict.t :=
  let headers := base_headers accept_json in
  let headers := CaseInsensitiveDict.update [("Session-Token", session)] headers in
  let headers := if negb (is_none app_token)
                 then CaseInsensitiveDict.update [("App-Token", app_token)] headers
                 else headers in
  CaseInsensitiveDict.update (items input) headers.

(** The call that [request] hands to [requests.request]: [json] and
    [files] are not among its arguments, and [kwargs] cannot hold them,
    since [request] takes both as parameters of its own. *)
Definition api_request (method full_url : string) (headers : CaseInsensitiveDict.t)
    (args : cleaned) (kwargs : pydict) : http_request :=
  {| req_method := method;
     req_url := full_url;
     req_headers := CIHeaders headers;
     req_params := c_params args;
     req_data := c_data args;
     req_json := VNone;
     req_files := VNone;
     req_auth := NoAuth;
     req_kwargs := kwargs |}.

(** [self.url + url] *)
Definition full_url (s : t) (path : option string) : result string :=
  concat (url s) path.

Definition unauthorized : string :=
  "Unauthorized: Access is denied due to invalid credentials ".

(** The branch of [request] taken when the parsed body of a 2xx
    response has [status == 'ERROR']. *)
Definition raise_application_error (response_json : value) : M state pyobj :=
  assign_status_code 400 ;;;
  has_info <~ lift (Py.contains "statusInfo" response_json) ;;
  error_message <~ (if has_info : bool
                    then lift (Py.getitem response_json "statusInfo")
                    else ret (VStr "Unknown error")) ;;
  (if eq_str error_message "invalid-app-token"
   then assign_status_code 401 else ret tt) ;;;
  msg <~ lift (Py.add_str "Error: " error_message) ;;
  raise (GlpiException msg).

Definition handle_response (accept_json : bool) (response : http_response)
    : M state pyobj :=
  if (200 <=? status_code response) && (status_code response <=? 299) then
    if accept_json then
      response_json <~ lift (response_json response) ;;
      has_status <~ lift (Py.contains "status" response_json) ;;
      is_error <~ (if has_status : bool
                   then st <~ lift (Py.getitem response_json "status") ;;
                        ret (eq_str st "ERROR")
                   else ret false) ;;
      if is_error : bool then raise_application_error response_json
      else ret (Val response_json)
    else ret (Resp response)
  else
    if status_code response =? 401 then raise (GlpiException unauthorized)
    else raise (GlpiException (_get_error_message response)).

(** The [try] block of [request]: a session is opened when no token
    is cached, and any failure is wrapped. *)
Definition ensure_session : M state unit :=
  try_except
    (s <~ self ;;
     if is_none (session s) then set_session_token ;;; ret tt else ret tt)
    (fun e => raise (WrappedException "Unable to get Session token. ERROR: " e)).

Definition request (method : string) (url : option string) (accept_json : bool)
    (headers : pydict) (params json data files : value) (kwargs : pydict)
    : M state pyobj :=
  s <~ self ;;
  full_url <~ lift (full_url s url) ;;
  let input_headers := input_headers headers in
  ensure_session ;;;
  s <~ self ;;
  let headers := final_headers accept_json (session s) (app_token s) input_headers in
  let args := clean_arguments params json data files in
  response <~ http (api_request method full_url headers args kwargs) ;;
  handle_response accept_json response.

(** The call [request] issues once the URL is built and a session is
    there. *)
Definition issued (method u : string) (accept_json : bool) (headers : pydict)
    (params json data files : value) (kwargs : pydict) (s : t) : http_request :=
  api_request method u
    (final_headers accept_json (session s) (app_token s) (input_headers headers))
    (clean_arguments params json data files) kwargs.

(** A computation that leaves the client and the log of calls alone. *)
Definition quiet {A} (m : M state A) : Prop :=
  forall st, (m st).2.1 = st.1 /\ log (m st).2.2 = log st.2.

(** *** Item helpers *)

Definition dquote : string := String (ascii_of_nat 34) EmptyString.

(** [str(v)] *)
Definition py_str (v : value) : string :=
  match v with
  | VNone => "None"
  | VBool b => if b then "True" else "False"
  | VInt z => PyStr.of_Z z
  | VStr s => s
  | VList _ | VDict _ => repr_container v
  end.

(** ['%s' % self.uri] *)
Definition uri_str (s : t) : string :=
  match uri s with Some u => u | None => "None" end.

Definition null_str : string := "<DEFAULT_NULL>".

(** One turn of the loop of [get_payload].  [data_str] is the empty
    string literal only before the first entry is written. *)
Definition payload_step (data_str : string) (kv : string * value) : string :=
  let data_str := if bool_decide (data_str = EmptyString) then data_str
                  else data_str +:+ "," in
  let key := " " +:+ dquote +:+ kv.1 +:+ dquote +:+ ": " in
  if eq_str kv.2 null_str then data_str +:+ key +:+ "null"
  else match kv.2 with
       | VStr v => data_str +:+ key +:+ dquote +:+ v +:+ dquote
       | v => data_str +:+ key +:+ py_str v
       end.

Definition get_payload (data_req : pydict) : string :=
  foldl payload_step EmptyString (items data_req).

(** [o.json()] on what [request] returned *)
Definition json_of (o : pyobj) : result value :=
  match o with
  | Resp r => response_json r
  | Val _ => Raise AttributeError
  end.

Definition get_all : M state value :=
  s <~ self ;;
  res <~ request "GET" (uri s) false ∅ VNone VNone VNone VNone ∅ ;;
  lift (json_of res).

(** [isinstance(item_id, int)]: booleans are integers too. *)
Definition as_int (v : value) : option Z :=
  match v with
  | VInt z => Some z
  | VBool b => Some (if b then 1 else 0)
  | _ => None
  end.

Definition get (item_id : value) : M state value :=
  s <~ self ;;
  match as_int item_id with
  | Some n =>
      let uri := "/" +:+ uri_str s +:+ "/" +:+ PyStr.of_Z n in
      res <~ request "GET" (Some uri) false ∅ VNone VNone VNone VNone ∅ ;;
      lift (json_of res)
  | None =>
      ret (VDict {["error_message" :=
                   VStr ("Unale to get " +:+ uri_str s +:+ " ID ["
                         +:+ py_str item_id +:+ "]")]})
  end.

Definition object_not_found : pyobj :=
  Val (VStr "{ 'error_message' : 'Object not found.'}").

Definition create_payload (object_data : pydict) : string :=
  "{" +:+ dquote +:+ "input" +:+ dquote +:+ ": { "
      +:+ get_payload object_data +:+ " }}".

Definition create (object_data : option pydict) : M state pyobj :=
  match object_data with
  | None => ret object_not_found
  | Some object_data =>
      let payload := create_payload object_data in
      s <~ self ;;
      request "POST" (uri s) true ∅ VNone VNone (VStr payload) VNone ∅
  end.

Definition search_options (item_name : string) : M state pyobj :=
  s <~ self ;;
  let new_uri := uri_str s +:+ "/" +:+ item_name in
  request "GET" (Some new_uri) true ∅ VNone VNone VNone VNone ∅.

End WithPlatform.
End Service.

(** ** GLPI, the generic router *)

Module Router.
Section WithPlatform.
Context `{Platform}.

Record t : Type := {
  url : value;
  app_token : value;
  auth_token : value;
  item_uri : option string;
  item_map : gmap string string;
  api_rest : option Service.t;
  api_session : value
}.

Definition state : Type := t * world.

Definition self : M state t := gets fst.

Definition update_self (f : t -> t) : M state unit :=
  modify (fun st => (f st.1, st.2)).

Definition with_item_uri (u : option string) (g : t) : t :=
  {| url := url g; app_token := app_token g; auth_token := auth_token g;
     item_uri := u; item_map := item_map g;
     api_rest := api_rest g; api_session := api_session g |}.

Definition with_item_map (m : gmap string string) (g : t) : t :=
  {| url := url g; app_token := app_token g; auth_token := auth_token g;
     item_uri := item_uri g; item_map := m;
     api_rest := api_rest g; api_session := api_session g |}.

Definition with_api_rest (a : option Service.t) (g : t) : t :=
  {| url := url g; app_token := app_token g; auth_token := auth_token g;
     item_uri := item_uri g; item_map := item_map g;
     api_rest := a; api_session := api_session g |}.

Definition with_api_session (v : value) (g : t) : t :=
  {| url := url g; app_token := app_token g; auth_token := auth_token g;
     item_uri := item_uri g; item_map := item_map g;
     api_rest := api_rest g; api_session := v |}.

(** A method call on [self.api_rest]; on [None] it is an
    [AttributeError]. *)
Definition on_api_rest {A} (m : M Service.state A) : M state A :=
  fun st =>
    match api_rest st.1 with
    | None => (Raise AttributeError, st)
    | Some s =>
        let '(r, (s', w')) := m (s, st.2) in
        (r, (with_api_rest (Some s') st.1, w'))
    end.

Definition print (line : string) : M state unit :=
  modify (fun st => (st.1, {| log := log st.2; stdout := stdout st.2 ++ [line];
                              response := response st.2 |})).

Definition default_item_map : gmap string string :=
  <["ticket" := "/Ticket"]>
    (<["knowbase" := "/knowbaseitem"]>
       {["listSearchOptions" := "/listSearchOptions"]}).

Definition set_item_map (m : gmap string string) (g : t) : t :=
  with_item_map m g.

Definition __init__ (url app_token auth_token : value)
    (item_map : option (gmap string string)) : t :=
  let g := {| url := url; app_token := app_token; auth_token := auth_token;
              item_uri := None; item_map := default_item_map;
              api_rest := None; api_session := VNone |} in
  match item_map with
  | Some m => set_item_map m g
  | None => g
  end.

Definition message_error (msg : string) : value :=
  VDict {["message_error" := VStr msg]}.

(** [self.item_map[item_name]] *)
Definition lookup_item (item_name : string) : M state string :=
  g <~ self ;;
  match item_map g !! item_name with
  | Some path => ret path
  | None => raise (KeyError (VStr item_name))
  end.

Definition set_item (item_name : string) : M state unit :=
  path <~ lookup_item item_name ;;
  update_self (with_item_uri (Some path)).

Definition set_api_uri : M state unit :=
  g <~ self ;;
  on_api_rest (Service.update_self (Service.set_uri (item_uri g))).

Definition init_api : M state value :=
  g <~ self ;;
  match item_uri g with
  | None => ret (message_error "Please use set_item() before init API.")
  | Some _ =>
      client <~ lift (Service.__init__ (url g) (app_token g) (item_uri g)
                        VNone VNone (auth_token g) false None) ;;
      update_self (with_api_rest (Some client)) ;;;
      tok <~ on_api_rest Service.get_session_token ;;
      update_self (with_api_session tok) ;;;
      if negb (is_none tok) then ret (VDict {["session_token" := tok]})
      else ret (message_error "Unable to InitSession in GLPI Server.")
  end.

Definition init_item (item_name : string) : M state bool :=
  g <~ self ;;
  path <~ lookup_item item_name ;;
  update_api <~ (if bool_decide (item_uri g ≠ Some path)
                 then set_item item_name ;;; ret true
                 else ret false) ;;
  g <~ self ;;
  ready <~ (match api_rest g with
            | None =>
                try_except (init_api ;;; ret true)
                  (fun _ =>
                     print "message_error: Unable to InitSession in GLPI Server." ;;;
                     ret false)
            | Some _ => ret true
            end) ;;
  if ready : bool then
    (if update_api : bool then set_api_uri else ret tt) ;;;
    ret true
  else ret false.

(** *** Item operations *)

Definition get_all (item_name : string) : M state value :=
  ok <~ init_item item_name ;;
  if ok : bool then on_api_rest Service.get_all
  else ret (message_error "Unable to get Item in GLPI Server.").

Definition get (item_name : string) (item_id : value) : M state value :=
  ok <~ init_item item_name ;;
  if ok : bool then on_api_rest (Service.get item_id)
  else ret (message_error "Unable to get Item by ID in GLPI Server.").

Definition create (item_name : string) (item_data : option pydict) : M state pyobj :=
  ok <~ init_item item_name ;;
  if ok : bool then on_api_rest (Service.create item_data)
  else ret (Val (message_error "Unable to create an Item in GLPI Server.")).

Definition search_options (item_name : string) : M state pyobj :=
  ok <~ init_item "listSearchOptions" ;;
  if ok : bool then on_api_rest (Service.search_options item_name)
  else ret (Val (message_error "Unable to create an Item in GLPI Server.")).

(** *** Search *)

(** The elements a [for] loop visits. *)
Definition iter (v : value) : result (list value) :=
  match v with
  | VList l => Ok l
  | VDict d => Ok (map (fun kv => VStr kv.1) (items d))
  | VStr s => Ok (Py.chars s)
  | _ => Raise TypeError
  end.

(** [v.lower()]: a string method; anything else has no such
    attribute. *)
Definition lower (v : value) : result string :=
  match v with
  | VStr s => Ok (text_lower s)
  | _ => Raise AttributeError
  end.

(** [c['value'].lower() in d[c['field']].lower()] *)
Definition criterion_matches (d c : value) : result bool :=
  rbind (Py.getitem c "value") (fun v =>
  rbind (lower v) (fun needle =>
  rbind (Py.getitem c "field") (fun field =>
  rbind (Py.getitem_val d field) (fun x =>
  rbind (lower x) (fun hay =>
  Ok (PyStr.contains needle hay)))))).

(** The inner loop: every criterion is evaluated, also after a match. *)
Fixpoint any_criterion (d : value) (criteria : list value) (find : bool)
    : result bool :=
  match criteria with
  | [] => Ok find
  | c :: criteria =>
      rbind (criterion_matches d c) (fun m =>
      any_criterion d criteria (if m : bool then true else find))
  end.

Fixpoint search_loop (data : list value) (criteria : value) (results : list value)
    : result (list value) :=
  match data with
  | [] => Ok results
  | d :: data =>
      rbind (iter criteria) (fun cs =>
      rbind (any_criterion d cs false) (fun find =>
      search_loop data criteria (if find : bool then results ++ [d] else results)))
  end.

Definition search_criteria (data criteria : value) : result value :=
  rbind (iter data) (fun ds =>
  rbind (search_loop ds criteria []) (fun found => Ok (VList found))).

Definition search_metacriteria (metacriteria : value) : value :=
  VDict {["message_info" := VStr "Not implemented yet"]}.

Definition search (item_name : string) (criteria : pydict) : M state value :=
  match criteria !! "criteria" with
  | Some c =>
      data <~ get_all item_name ;;
      lift (search_criteria data c)
  | None =>
      match criteria !! "metacriteria" with
      | Some m => ret (search_metacriteria m)
      | None => ret (message_error "Unable to find a valid criteria.")
      end
  end.

End WithPlatform.
End Router.

(** ** A concrete platform

    Dictionaries are visited in the order of [map_to_list]; the server
    is given by its answer to each call; the text of the runs is ASCII,
    so [lower()] is the fold of A-Z. *)

Definition platform_of
    (server : list http_request -> http_request -> result http_response)
    : Platform :=
  {| __version__ := "0.3";
     items := map_to_list;
     items_perm := fun d => reflexivity (map_to_list d);
     repr_container := fun _ => "<container>";
     transport := server;
     getenv_VCAP_SERVICES := None;
     json_loads := fun _ => Raise ValueError;
     text_lower := PyStr.lower |}.

(** A server that answers every call with the same response. *)
Definition constant_server (r : http_response)
    : list http_request -> http_request -> result http_response :=
  fun _ _ => Ok r.

(** A client with a cached session token, bound to [/Ticket]. *)
Definition client_with_session : Service.t :=
  {| Service.url := VStr "http://glpi/apirest.php";
     Service.app_token := VStr "app";
     Service.uri := Some "/Ticket";
     Service.username := VNone;
     Service.password := VNone;
     Service.token_auth := VStr "auth";
     Service.session := VStr "tok" |}.

(** A router as it is constructed, and one whose client holds a session
    token and is bound to [/Ticket]. *)
Definition router_fresh : Router.t :=
  Router.__init__ (VStr "http://glpi/apirest.php") (VStr "app") (VStr "auth") None.

Definition router_with_session : Router.t :=
  {| Router.url := VStr "http://glpi/apirest.php";
     Router.app_token := VStr "app";
     Router.auth_token := VStr "auth";
     Router.item_uri := Some "/Ticket";
     Router.item_map := Router.default_item_map;
     Router.api_rest := Some client_with_session;
     Router.api_session := VStr "tok" |}.

(** Three tickets, and a server that opens a session and lists them. *)
Definition ticket (name : string) : pydict := {["name" := VStr name]}.

Definition tickets : list pydict :=
  [ticket "Printer ABC"; ticket "screen"; ticket "my abc"].

Definition by_name (value : string) : pydict :=
  <["field" := VStr "name"]> {["value" := VStr value]}.


Definition ticket_server : list http_request -> http_request -> result http_response :=
  fun _ req =>
    if bool_decide (req_url req = "http://glpi/apirest.php/initSession")
    then Ok {| status_code := 200;
               json := Some (VDict {["session_token" := VStr "tok"]}) |}
    else Ok {| status_code := 200; json := Some (VList (VDict <$> tickets)) |}.

(** The header a request carries under a name. *)
Definition header (name : string) (req : http_request) : option value :=
  match req_headers req with
  | PlainHeaders d => d !! name
  | CIHeaders m => CaseInsensitiveDict.get name m
  end.

(** ** Vocabulary of the properties *)

(** [after] is [before] without its entries of value [None]; anything
    that is not a dictionary is left as it is. *)
Definition null_stripped (before after : value) : Prop :=
  match before with
  | VDict d =>
      exists d', after = VDict d' /\
                 forall k v, d' !! k = Some v <-> d !! k = Some v /\ v ≠ VNone
  | _ => after = before
  end.

(** A value as a query parameter carries it: no [None], no boolean. *)
Definition transmissible (v : value) : Prop :=
  v ≠ VNone /\ forall b, v ≠ VBool b.


(** A status code of the 2xx class. *)
Definition is_2xx (code : Z) : Prop := 200 <= code <= 299.




Section SearchVocabulary.
Context `{Platform}.




End SearchVocabulary.

(** The caller gives a credential of its own: a token that is neither
    empty nor the placeholder, or no token and such a user name. *)
Definition explicit_credentials (username token_auth : value) : Prop :=
  (truthy token_auth = true /\ token_auth ≠ VStr "YOUR AUTH TOKEN") \/
  (token_auth = VNone /\ truthy username = true /\
   username ≠ VStr "YOUR SERVICE USERNAME").

Definition conflicting_credentials : string :=
  "Cannot set token_auth and username and password together".

(** What a session-init response yields as a token:
    [r.json()['session_token']]. *)
Definition session_token_of (r : http_response) : result value :=
  rbind (match json r with Some v => Ok v | None => Raise ValueError end)
        (fun body => Py.getitem body "session_token").

(** The fields of an error body that the message is built from are all
    strings. *)
Definition text_fields (d : pydict) : Prop :=
  forall k v, k ∈ ["error"; "error_message"; "msg"; "statusInfo"; "description"] ->
              d !! k = Some v -> exists s, v = VStr s.

(** The first of [error], [error_message], [msg] and [statusInfo] that
    the body has. *)
Definition first_text (d : pydict) : option value :=
  head (omap (fun k => d !! k) ["error"; "error_message"; "msg"; "statusInfo"]).

Definition composed_message (d : pydict) (code : Z) : string :=
  match first_text d with
  | Some (VStr s) => "Error: " +:+ s
  | _ => "Unknown error"
  end
  +:+ match d !! "description" with
      | Some (VStr s) => ", Description: " +:+ s
      | _ => EmptyString
      end
  +:+ ", Code: " +:+ PyStr.of_Z code.

(** The payload as a list of rendered entries joined by commas. *)
Section PayloadVocabulary.
Context `{Platform}.

(** One entry: a space, the quoted key, a colon, and the value: [null]
    for the null marker, the string between quotes (nothing in it is
    escaped), [str] of anything else. *)
Definition render_entry (kv : string * value) : string :=
  let key := " " +:+ Service.dquote +:+ kv.1 +:+ Service.dquote +:+ ": " in
  if eq_str kv.2 Service.null_str then key +:+ "null"
  else match kv.2 with
       | VStr v => key +:+ Service.dquote +:+ v +:+ Service.dquote
       | v => key +:+ Service.py_str v
       end.

Fixpoint join_commas (l : list string) : string :=
  match l with
  | [] => EmptyString
  | [x] => x
  | x :: rest => x +:+ "," +:+ join_commas rest
  end.

End PayloadVocabulary.

(** The client of a router, when there is one, is bound to the path the
    router holds. *)
Definition coherent (g : Router.t) : Prop :=
  forall c, Router.api_rest g = Some c -> Service.uri c = Router.item_uri g.

(** The client of a router after readiness for an item of path [path]:
    [init_item] rebinds it when that path is not the one the router
    holds, and leaves it as it is otherwise. *)
Definition rebound (g : Router.t) (path : string) (c : Service.t) : Service.t :=
  if bool_decide (Router.item_uri g ≠ Some path)
  then Service.set_uri (Some path) c
  else c.

(** A token the constructor of the client accepts. *)
Definition usable_token (v : value) : Prop :=
  v ≠ VNone /\ v ≠ VStr "YOUR AUTH TOKEN".

(** The client [init_api] builds for a router bound to [path]. *)
Definition client_of (g : Router.t) (path : string) : Service.t :=
  {| Service.url := Router.url g;
     Service.app_token := Router.app_token g;
     Service.uri := Some path;
     Service.username := VNone;
     Service.password := VNone;
     Service.token_auth := Router.auth_token g;
     Service.session := VNone |}.

Definition printed (line : string) (w : world) : world :=
  {| log := log w; stdout := stdout w ++ [line]; response := response w |}.

Definition init_failed : string :=
  "message_error: Unable to InitSession in GLPI Server.".

Definition get_failed : string := "Unable to get Item in GLPI Server.".

(** ** GlpiItem

    The data of an item is a dictionary object, and the code shares and
    mutates such objects: [__init__] keeps the dictionary it is given
    (by default the one dictionary made with the class), [set_attribute]
    writes into it, [unset_attributes] binds a new one.  So dictionaries
    live in a heap and an item holds a reference. *)

Module Item.
Section WithPlatform.
Context `{Platform}.

Abbreviation loc := nat.
Abbreviation heap := (gmap nat pydict).

Record t : Type := {
  data : loc;
  null_str : string
}.

Definition state : Type := t * heap.

(** The dictionary that [data={}] denotes in the signature of
    [__init__]: one object, made when the class is defined. *)
Definition default_data : loc := 0%nat.

Definition heap0 : heap := {[default_data := ∅]}.

(** The dictionary behind a reference. *)
Definition deref (l : loc) (h : heap) : pydict := default ∅ (h !! l).

(** [self.data[k] = v] and [self.data.update({k: v})] *)
Definition store (k : string) (v : value) (st : state) : state :=
  (st.1, <[data st.1 := <[k := v]> (deref (data st.1) st.2)]> st.2).

Definition __init__ (data : option loc) : t :=
  {| data := default default_data data; null_str := "<DEFAULT_NULL>" |}.

Definition get_data : M state loc := gets (fun st => data st.1).

Definition get_attributes : M state loc := get_data.

(** Without the attribute the method falls off its end: [None]. *)
Definition get_attribute (attr : string) : M state value :=
  gets (fun st => match deref (data st.1) st.2 !! attr with
                  | Some v => v
                  | None => VNone
                  end).

Definition set_attribute (attr : string) (v : value) : M state unit :=
  modify (store attr v).

(** [for x in l: body x] *)
Fixpoint for_each {S A} (l : list A) (body : A -> M S unit) : M S unit :=
  match l with
  | [] => ret tt
  | x :: l => bind (body x) (fun _ => for_each l body)
  end.

(** One turn of the loop of [set_attributes]; both branches write the
    entry of [attributes] into the data. *)
Definition set_attributes_step (attributes : loc) (k : string) : M state unit :=
  fun st =>
    match deref attributes st.2 !! k with
    | None => (Raise (KeyError (VStr k)), st)
    | Some v =>
        if bool_decide (is_Some (deref (data st.1) st.2 !! k))
        then (Ok tt, store k v st)
        else (Ok tt, store k v st)
    end.

(** [attributes is {}] compares the argument with a dictionary that the
    literal has just made; on that identity the data would be returned,
    otherwise the entries are written and nothing is returned. *)
Definition set_attributes (attributes : loc) : M state (option loc) :=
  fun st =>
    if bool_decide (attributes = fresh (dom st.2)) then (Ok (Some (data st.1)), st)
    else
      bind (for_each (items (deref attributes st.2)).*1 (set_attributes_step attributes))
           (fun _ => ret None) st.

(** [self.data = {}]: a new dictionary; the old one is left as it is. *)
Definition unset_attributes : M state loc :=
  fun st =>
    let l := fresh (dom st.2) in
    (Ok l, ({| data := l; null_str := null_str st.1 |}, <[l := ∅]> st.2)).

Definition stream_step (null_str : string) (input_data : string)
    (kv : string * value) : string :=
  let input_data := if bool_decide (input_data = EmptyString) then input_data
                    else input_data +:+ "," in
  let key := " " +:+ Service.dquote +:+ kv.1 +:+ Service.dquote +:+ ": " in
  if eq_str kv.2 null_str then input_data +:+ key +:+ "null"
  else match kv.2 with
       | VStr v => input_data +:+ key +:+ Service.dquote +:+ v +:+ Service.dquote
       | v => input_data +:+ key +:+ Service.py_str v
       end.

Definition get_stream : M state string :=
  gets (fun st => foldl (stream_step (null_str st.1)) EmptyString
                    (items (deref (data st.1) st.2))).

End WithPlatform.
End Item.

(** The small methods left: [unpack_id] and [get_version] of the
    client, [help_item] of the router. *)
Definition unpack_id (dictionary : value) (label_id : string) : value :=
  match dictionary with
  | VDict d => match d !! label_id with Some v => v | None => dictionary end
  | _ => dictionary
  end.

Definition get_version `{Platform} : string := __version__.

Definition help_item (g : Router.t) : gmap string (gmap string string) :=
  {["available_items" := Router.item_map g]}.

(** More values for the concrete runs: a client that has no session
    yet, a server that is down, a router without auth token, responses
    with an error body, and a heap with two dictionaries. *)
Definition client_without_session : Service.t :=
  Service.with_session VNone client_with_session.

Definition down_server : list http_request -> http_request -> result http_response :=
  fun _ _ => Raise TransportError.

Definition router_without_token : Router.t :=
  Router.__init__ (VStr "http://glpi/apirest.php") (VStr "app") VNone None.

Definition session_200 : http_response :=
  {| status_code := 200; json := Some (VDict {["session_token" := VStr "tok"]}) |}.

Definition bad_request_body : pydict :=
  <["error" := VStr "Bad request"]> {["description" := VStr "no such field"]}.

Definition bad_request_400 : http_response :=
  {| status_code := 400; json := Some (VDict bad_request_body) |}.

Definition denied_401 : http_response :=
  {| status_code := 401; json := Some (VDict bad_request_body) |}.

Definition two_dicts : gmap nat pydict :=
  <[0%nat := {["name" := VStr "old"]}]>
    {[1%nat := <["name" := VStr "new"]> {["urgency" := VInt 3]}]}.

(** Responses used in the concrete runs below. *)
Definition empty_list_200 : http_response :=
  {| status_code := 200; json := Some (VList []) |}.

Definition not_json_500 : http_response :=
  {| status_code := 500; json := None |}.

Definition app_error_200 (info : string) : http_response :=
  {| status_code := 200;
     json := Some (VDict (<["status" := VStr "ERROR"]>
                            {["statusInfo" := VStr info]})) |}.

(** * Properties *)

Example lower_mixed : PyStr.lower "Session-Token" = "session-token".
Proof. reflexivity. Qed.

Example contains_mid : PyStr.contains "bc" "abcd" = true.
Proof. reflexivity. Qed.

Example of_Z_500 : PyStr.of_Z 500 = "500".
Proof. reflexivity. Qed.

Example of_Z_neg : PyStr.of_Z (-7) = "-7".
Proof. reflexivity. Qed.

(** ** Null stripping and parameter clean-up *)

Lemma is_none_false (v : value) : is_none v = false <-> v ≠ VNone.
Proof. destruct v; simpl; split; intros; congruence. Qed.

Lemma remove_null_lookup (d : pydict) (k : string) (v : value) :
  filter not_null d !! k = Some v <-> d !! k = Some v /\ v ≠ VNone.
Proof.
  rewrite map_lookup_filter_Some. unfold not_null. simpl.
  by rewrite is_none_false.
Qed.

Lemma remove_null_no_null (d : pydict) (k : string) :
  filter not_null d !! k ≠ Some VNone.
Proof. intros E. apply remove_null_lookup in E as [_ E]. by apply E. Qed.

Lemma cleanup_param_value_not_bool (v : value) (b : bool) :
  _cleanup_param_value v ≠ VBool b.
Proof. by destruct v. Qed.

Lemma cleanup_param_value_none (v : value) :
  _cleanup_param_value v = VNone <-> v = VNone.
Proof. by destruct v. Qed.

(** ** The header map *)

Module CIFacts.
Import CaseInsensitiveDict.

Lemma update_snoc entries kv (m : t) :
  update (entries ++ [kv]) m = setitem kv.1 kv.2 (update entries m).
Proof. unfold update. by rewrite foldl_app. Qed.

(** Names the entries do not write keep their value. *)
Lemma update_lookup_other entries (m : t) (k : string) :
  (forall kv, kv ∈ entries -> PyStr.lower kv.1 ≠ k) ->
  update entries m !! k = m !! k.
Proof.
  pattern entries. apply rev_ind; clear entries; [done|].
  intros kv entries IH Hno. rewrite update_snoc. unfold setitem.
  rewrite lookup_insert_ne.
  - apply IH. intros kv' Hin. apply Hno, elem_of_app. by left.
  - apply Hno, elem_of_app. right. by apply list_elem_of_singleton.
Qed.

(** A name some entry writes holds one of the entries written under
    it. *)
Lemma update_lookup_written entries (m : t) (k : string) :
  (exists kv, kv ∈ entries /\ PyStr.lower kv.1 = k) ->
  exists kv, kv ∈ entries /\ PyStr.lower kv.1 = k /\
             update entries m !! k = Some kv.
Proof.
  pattern entries. apply rev_ind; clear entries.
  - intros (kv & Hin & _). by apply elem_of_nil in Hin.
  - intros kv entries IH (kv' & Hin & Hk). rewrite update_snoc. unfold setitem.
    destruct (decide (PyStr.lower kv.1 = k)) as [E|NE].
    + exists kv. split; [|split; [done|]].
      * apply elem_of_app. right. by apply list_elem_of_singleton.
      * rewrite E, lookup_insert_eq. by destruct kv.
    + rewrite lookup_insert_ne by done.
      destruct IH as (kv0 & Hin0 & Hk0 & Hl0).
      * exists kv'. split; [|done].
        apply elem_of_app in Hin as [Hin|Hin]; [done|].
        apply list_elem_of_singleton in Hin. congruence.
      * exists kv0. split; [|done]. apply elem_of_app. by left.
Qed.

End CIFacts.

(** ** How [request] runs *)

Section ServiceFacts.
Context `{Platform}.
Import Service.

(** Membership in the iteration order is membership in the map. *)
Lemma elem_of_items (d : pydict) (k : string) (v : value) :
  (k, v) ∈ items d <-> d !! k = Some v.
Proof. by rewrite (items_perm d), elem_of_map_to_list. Qed.

Lemma input_headers_lookup (headers : pydict) (k : string) (v : value) :
  input_headers headers !! k = Some v <-> headers !! k = Some v /\ v ≠ VNone.
Proof.
  unfold input_headers. simpl. case_bool_decide as E; simpl.
  - subst. rewrite !lookup_empty. split; [done|by intros [? _]].
  - apply remove_null_lookup.
Qed.

Lemma quiet_ret {A} (a : A) : quiet (ret a).
Proof. by intros st. Qed.

Lemma quiet_raise {A} (e : exn) : quiet (@raise state A e).
Proof. by intros st. Qed.

Lemma quiet_lift {A} (r : result A) : quiet (lift r).
Proof. by intros st. Qed.

Lemma quiet_assign_status_code (c : Z) : quiet (assign_status_code c).
Proof. by intros st. Qed.

Lemma quiet_bind {A B} (m : M state A) (k : A -> M state B) :
  quiet m -> (forall a, quiet (k a)) -> quiet (bind m k).
Proof.
  intros Hm Hk st. unfold bind. specialize (Hm st).
  destruct (m st) as [[a|e] st1]; simpl in *; [|done].
  destruct (Hk a st1) as [-> ->]. done.
Qed.

Local Ltac quiet_step :=
  first [ apply quiet_ret | apply quiet_raise | apply quiet_lift
        | apply quiet_assign_status_code
        | apply quiet_bind; [|intros ?] ].

Lemma quiet_raise_application_error (body : value) :
  quiet (raise_application_error body).
Proof.
  unfold raise_application_error.
  repeat (quiet_step || match goal with
                        | |- quiet (if ?b then _ else _) => destruct b
                        end).
Qed.

Lemma quiet_handle_response (accept_json : bool) (r : http_response) :
  quiet (handle_response accept_json r).
Proof.
  unfold handle_response.
  repeat (apply quiet_raise_application_error || quiet_step ||
          match goal with
          | |- quiet (if ?b then _ else _) => destruct b
          end).
Qed.

Lemma http_state (req : http_request) (st : state) :
  (http req st).2.1 = st.1 /\ log (http req st).2.2 = (log st.2 ++ [req])%list.
Proof. unfold http. by destruct (transport _ _). Qed.

(** With a token cached the [try] block does nothing. *)
Lemma ensure_session_cached (st : state) :
  is_none (session st.1) = false -> ensure_session st = (Ok tt, st).
Proof.
  intros E. unfold ensure_session, try_except, bind, self, gets. simpl.
  by rewrite E.
Qed.

(** [ensure_session] changes no field of the client but the token. *)
Lemma ensure_session_fields (st st1 : state) (r : result unit) :
  ensure_session st = (r, st1) ->
  url st1.1 = url st.1 /\ app_token st1.1 = app_token st.1 /\ uri st1.1 = uri st.1.
Proof.
  unfold ensure_session, try_except, bind, self, gets. simpl.
  destruct (is_none (session st.1)); simpl; [|by intros [= _ <-]].
  unfold set_session_token, bind, self, gets, lift. simpl.
  destruct (concat _ _); simpl; [|by intros [= _ <-]].
  unfold http. destruct (transport _ _) as [resp|e]; simpl; [|by intros [= _ <-]].
  unfold try_except, bind, lift. simpl.
  destruct (response_json resp); simpl; [|by intros [= _ <-]].
  destruct (Py.getitem _ _); simpl; by intros [= _ <-].
Qed.

Lemma request_run method url accept_json headers params json data files kwargs
    (st st1 : state) (u : string) :
  full_url st.1 url = Ok u ->
  ensure_session st = (Ok tt, st1) ->
  request method url accept_json headers params json data files kwargs st
  = bind (http (issued method u accept_json headers params json data files kwargs st1.1))
         (handle_response accept_json) st1.
Proof.
  intros Hu Hs. unfold request, bind at 1 2 3, self, gets, lift. simpl.
  rewrite Hu, Hs. reflexivity.
Qed.

(** After a call that got as far as the transport, the log holds that
    call last and the client is as [ensure_session] left it. *)
Lemma request_log method url accept_json headers params json data files kwargs
    (st st1 : state) (u : string) :
  full_url st.1 url = Ok u ->
  ensure_session st = (Ok tt, st1) ->
  let st' := (request method url accept_json headers params json data files kwargs st).2 in
  st'.1 = st1.1 /\
  log st'.2 = (log st1.2
               ++ [issued method u accept_json headers params json data files kwargs st1.1])%list.
Proof.
  intros Hu Hs. rewrite (request_run _ _ _ _ _ _ _ _ _ _ _ _ Hu Hs).
  unfold bind.
  pose proof (http_state
    (issued method u accept_json headers params json data files kwargs st1.1) st1)
    as [H1 H2].
  destruct (http _ st1) as [[resp|e] st2]; simpl in *; [|done].
  destruct (quiet_handle_response accept_json resp st2) as [-> ->]. done.
Qed.

End ServiceFacts.

(** ** Headers of a request (C1) *)

Section Headers.
Context `{Platform}.
Import Service.

Lemma final_headers_written accept_json sess app (input : pydict) (name : string) :
  (exists k v, input !! k = Some v /\ PyStr.lower k = PyStr.lower name) ->
  exists k v, input !! k = Some v /\ PyStr.lower k = PyStr.lower name /\
              CaseInsensitiveDict.get name
                (final_headers accept_json sess app input) = Some v.
Proof.
  intros (k & v & Hin & Hk). unfold final_headers, CaseInsensitiveDict.get.
  edestruct (CIFacts.update_lookup_written (items input)) as ([k' v'] & Hin' & Hk' & ->).
  { exists (k, v). split; [by apply elem_of_items|done]. }
  exists k', v'. split; [by apply elem_of_items|]. done.
Qed.

Lemma final_headers_not_written accept_json sess app (input : pydict) (name : string) :
  (forall k v, input !! k = Some v -> PyStr.lower k ≠ PyStr.lower name) ->
  (PyStr.lower name = "session-token" ->
   CaseInsensitiveDict.get name (final_headers accept_json sess app input) = Some sess) /\
  (PyStr.lower name = "app-token" -> app ≠ VNone ->
   CaseInsensitiveDict.get name (final_headers accept_json sess app input) = Some app) /\
  (PyStr.lower name = "user-agent" ->
   CaseInsensitiveDict.get name (final_headers accept_json sess app input)
   = Some user_agent).
Proof.
  intros Hno. unfold final_headers, CaseInsensitiveDict.get.
  rewrite CIFacts.update_lookup_other; cycle 1.
  { intros [k v] Hin. apply elem_of_items in Hin. by apply (Hno k v). }
  split; [|split].
  - intros ->. destruct (is_none app), accept_json; reflexivity.
  - intros -> Happ. apply is_none_false in Happ. rewrite Happ.
    destruct accept_json; reflexivity.
  - intros ->. destruct (is_none app), accept_json; reflexivity.
Qed.

(** C1, as the code has it: [headers.update(input_headers)] comes last,
    so a header the caller passes with a value other than [None] is
    what is sent under its name, whatever its case, and this holds for
    [Session-Token] and [App-Token] as for [user-agent]; a name the
    caller does not pass carries the cached session token
    ([Session-Token]), the app token ([App-Token], when there is one)
    and the SDK's identifier ([user-agent]). *)
Theorem request_headers_caller_last
    method url accept_json (headers : pydict) params json data files kwargs
    (st st1 : state) (u : string) :
  full_url st.1 url = Ok u ->
  ensure_session st = (Ok tt, st1) ->
  let st' := (request method url accept_json headers params json data files kwargs st).2 in
  exists req,
    log st'.2 = (log st1.2 ++ [req])%list /\
    (forall name,
       (forall k v, headers !! k = Some v -> v ≠ VNone ->
                    PyStr.lower k ≠ PyStr.lower name) ->
       (PyStr.lower name = "session-token" ->
        header name req = Some (session st'.1)) /\
       (PyStr.lower name = "app-token" -> app_token st'.1 ≠ VNone ->
        header name req = Some (app_token st'.1)) /\
       (PyStr.lower name = "user-agent" -> header name req = Some user_agent)) /\
    (forall k v, headers !! k = Some v -> v ≠ VNone ->
       exists k' v', headers !! k' = Some v' /\ v' ≠ VNone /\
                     PyStr.lower k' = PyStr.lower k /\
                     header k req = Some v').
Proof.
  intros Hu Hs st'.
  destruct (request_log method url accept_json headers params json data files kwargs
              st st1 u Hu Hs) as [Hself Hlog].
  fold st' in Hself, Hlog. eexists. split; [exact Hlog|]. rewrite Hself.
  unfold issued, header, api_request. simpl. split.
  - intros name Hno. apply final_headers_not_written.
    intros k v Hin. apply input_headers_lookup in Hin as [Hin Hv]. by apply (Hno k v).
  - intros k v Hin Hv.
    edestruct (final_headers_written accept_json (session st1.1) (app_token st1.1)
                 (input_headers headers) k) as (k' & v' & Hin' & Hk' & Hget).
    { exists k, v. split; [|done]. by apply input_headers_lookup. }
    apply input_headers_lookup in Hin' as [Hin' Hv'].
    by exists k', v'.
Qed.

End Headers.

(** ** Arguments of a request (C6, C9) *)

Section Arguments.
Context `{Platform}.
Import Service.

Lemma remove_null_values_stripped (v : value) :
  null_stripped v (_remove_null_values v).
Proof.
  destruct v; simpl; try done.
  eexists. split; [done|]. intros k v. apply remove_null_lookup.
Qed.

Lemma clean_params_lookup (d : pydict) (k : string) (v : value) :
  (_cleanup_param_value <$> filter not_null d) !! k = Some v <->
  exists v0, d !! k = Some v0 /\ v0 ≠ VNone /\ v = _cleanup_param_value v0.
Proof.
  rewrite lookup_fmap, fmap_Some. split.
  - intros (v0 & Hv0 & ->). apply remove_null_lookup in Hv0 as [? ?]. by exists v0.
  - intros (v0 & ? & ? & ->). exists v0. split; [|done]. by apply remove_null_lookup.
Qed.

(** C6: [request] removes the entries of value [None] from [params],
    from the body ([data], and [json]) and from [files], each on its
    own, before the HTTP call; the call carries the stripped [params]
    and [data], no parameter it carries is [None] or a boolean, and a
    boolean parameter is carried as the string [true] or [false]. *)
Theorem request_strips_nulls_and_booleans
    method url accept_json headers params json data files kwargs
    (st st1 : state) (u : string) :
  full_url st.1 url = Ok u ->
  ensure_session st = (Ok tt, st1) ->
  let st' := (request method url accept_json headers params json data files kwargs st).2 in
  let args := clean_arguments params json data files in
  null_stripped json (c_json args) /\
  null_stripped data (c_data args) /\
  null_stripped files (c_files args) /\
  (forall d, params = VDict d ->
     exists d', c_params args = VDict d' /\
       forall k v, d' !! k = Some v <->
         exists v0, d !! k = Some v0 /\ v0 ≠ VNone /\ v = _cleanup_param_value v0) /\
  exists req,
    log st'.2 = (log st1.2 ++ [req])%list /\
    req_params req = c_params args /\
    req_data req = c_data args /\
    (forall d k v, req_params req = VDict d -> d !! k = Some v -> transmissible v) /\
    (forall d k (b : bool), params = VDict d -> d !! k = Some (VBool b) ->
       exists d', req_params req = VDict d' /\
                  d' !! k = Some (VStr (if b then "true" else "false"))).
Proof.
  intros Hu Hs st' args.
  split; [apply remove_null_values_stripped|].
  split; [apply remove_null_values_stripped|].
  split; [apply remove_null_values_stripped|].
  split.
  { intros d ->. eexists. split; [reflexivity|]. apply clean_params_lookup. }
  destruct (request_log method url accept_json headers params json data files kwargs
              st st1 u Hu Hs) as [_ Hlog].
  eexists. split; [exact Hlog|]. simpl.
  split; [done|]. split; [done|]. split.
  - intros d k v Hd Hk. destruct params as [| | | | |d0]; simpl in Hd; try done.
    injection Hd as <-. apply clean_params_lookup in Hk as (v0 & _ & Hv0 & ->).
    split.
    + by rewrite cleanup_param_value_none.
    + apply cleanup_param_value_not_bool.
  - intros d k b -> Hk. eexists. split; [reflexivity|].
    apply clean_params_lookup. exists (VBool b). by destruct b.
Qed.

(** C9: the [json] argument is stripped of its entries of value [None]
    and goes no further: the call that is issued has no [json] and no
    [files], its body is the stripped [data], so with [data] left out
    the call has no body whatever [json] holds. *)
Theorem request_drops_json
    method url accept_json headers params json data files kwargs
    (st st1 : state) (u : string) :
  full_url st.1 url = Ok u ->
  ensure_session st = (Ok tt, st1) ->
  let st' := (request method url accept_json headers params json data files kwargs st).2 in
  null_stripped json (c_json (clean_arguments params json data files)) /\
  exists req,
    log st'.2 = (log st1.2 ++ [req])%list /\
    req_json req = VNone /\
    req_files req = VNone /\
    req_data req = _remove_null_values data /\
    (data = VNone -> req_data req = VNone).
Proof.
  intros Hu Hs st'.
  split; [apply remove_null_values_stripped|].
  destruct (request_log method url accept_json headers params json data files kwargs
              st st1 u Hu Hs) as [_ Hlog].
  eexists. split; [exact Hlog|]. simpl. repeat split. by intros ->.
Qed.

End Arguments.

(** ** Responses (C3, C5) *)

Section Responses.
Context `{Platform}.
Import Service.

Lemma not_2xx_test (code : Z) :
  ~ is_2xx code -> (200 <=? code) && (code <=? 299) = false.
Proof. unfold is_2xx. intros Hn. apply andb_false_iff. lia. Qed.

Lemma is_2xx_test (code : Z) :
  is_2xx code -> (200 <=? code) && (code <=? 299) = true.
Proof. unfold is_2xx. intros Hn. apply andb_true_iff. lia. Qed.

(** A body that is not JSON leaves the message at its initial value:
    the status code is appended inside the [try] block only. *)
Lemma get_error_message_not_json (resp : http_response) :
  json resp = None -> _get_error_message resp = "Unknown error".
Proof. intros E. unfold _get_error_message, response_json. by rewrite E. Qed.

(** C3, as the code has it: for a response outside 2xx, other than 401,
    whose body is not JSON, [request] raises a [GlpiException] whose
    message is exactly [Unknown error]; no status code is appended. *)
Theorem request_not_json_error_message
    method url accept_json headers params json_arg data files kwargs
    (st st1 : state) (u : string) (resp : http_response) :
  full_url st.1 url = Ok u ->
  ensure_session st = (Ok tt, st1) ->
  transport (log st1.2)
    (issued method u accept_json headers params json_arg data files kwargs st1.1) = Ok resp ->
  ~ is_2xx (status_code resp) ->
  status_code resp ≠ 401 ->
  json resp = None ->
  (request method url accept_json headers params json_arg data files kwargs st).1
  = Raise (GlpiException "Unknown error").
Proof.
  intros Hu Hs Ht Hno2 Hno401 Hbody.
  rewrite (request_run _ _ _ _ _ _ _ _ _ _ _ _ Hu Hs).
  unfold bind, http. rewrite Ht. simpl.
  unfold handle_response. rewrite (not_2xx_test _ Hno2).
  apply Z.eqb_neq in Hno401. rewrite Hno401.
  unfold raise. simpl. by rewrite get_error_message_not_json.
Qed.

(** What the error branch of a 2xx response does when the body is a
    dictionary with [status] equal to [ERROR] and a string under
    [statusInfo]. *)
Lemma handle_response_application_error
    (resp : http_response) (d : pydict) (info : string) (st : state) :
  is_2xx (status_code resp) ->
  json resp = Some (VDict d) ->
  d !! "status" = Some (VStr "ERROR") ->
  d !! "statusInfo" = Some (VStr info) ->
  handle_response true resp st
  = (Raise (GlpiException ("Error: " +:+ info)),
     (st.1, {| log := log st.2; stdout := stdout st.2;
               response := set_status_code
                             (if bool_decide (info = "invalid-app-token")
                              then 401 else 400) <$> response st.2 |})).
Proof.
  intros H2 Hbody Hstatus Hinfo. unfold handle_response.
  rewrite (is_2xx_test _ H2). unfold response_json. rewrite Hbody.
  unfold bind, lift, ret. simpl. rewrite Hstatus. simpl.
  unfold raise_application_error, bind, lift, ret, raise, assign_status_code, modify.
  simpl. rewrite Hinfo. simpl.
  case_bool_decide; simpl; [|done].
  do 3 f_equal. by destruct (response st.2).
Qed.

(** C5, as the code has it: when the call asked for JSON
    ([accept_json]) and the 2xx response is a JSON object with [status]
    equal to [ERROR] and a string [statusInfo], [request] raises a
    [GlpiException] with the message [Error: <statusInfo>], and the
    status code of the response object is set to 401 when the status
    info is [invalid-app-token] and to 400 otherwise. *)
Theorem request_application_error
    method url headers params json_arg data files kwargs
    (st st1 : state) (u : string) (resp : http_response) (d : pydict) (info : string) :
  full_url st.1 url = Ok u ->
  ensure_session st = (Ok tt, st1) ->
  transport (log st1.2)
    (issued method u true headers params json_arg data files kwargs st1.1) = Ok resp ->
  is_2xx (status_code resp) ->
  json resp = Some (VDict d) ->
  d !! "status" = Some (VStr "ERROR") ->
  d !! "statusInfo" = Some (VStr info) ->
  let out := request method url true headers params json_arg data files kwargs st in
  out.1 = Raise (GlpiException ("Error: " +:+ info)) /\
  response out.2.2
  = Some (set_status_code (if bool_decide (info = "invalid-app-token") then 401 else 400)
            resp).
Proof.
  intros Hu Hs Ht H2 Hbody Hstatus Hinfo out. unfold out.
  rewrite (request_run _ _ _ _ _ _ _ _ _ _ _ _ Hu Hs).
  unfold bind, http. rewrite Ht.
  rewrite (handle_response_application_error resp d info _ H2 Hbody Hstatus Hinfo).
  done.
Qed.

(** Without [statusInfo] the message is [Error: Unknown error] and the
    status code becomes 400. *)
Lemma handle_response_application_error_no_info
    (resp : http_response) (d : pydict) (st : state) :
  is_2xx (status_code resp) ->
  json resp = Some (VDict d) ->
  d !! "status" = Some (VStr "ERROR") ->
  d !! "statusInfo" = None ->
  handle_response true resp st
  = (Raise (GlpiException "Error: Unknown error"),
     (st.1, {| log := log st.2; stdout := stdout st.2;
               response := set_status_code 400 <$> response st.2 |})).
Proof.
  intros H2 Hbody Hstatus Hinfo. unfold handle_response.
  rewrite (is_2xx_test _ H2). unfold response_json. rewrite Hbody.
  unfold bind, lift, ret. simpl. rewrite Hstatus. simpl.
  unfold raise_application_error, bind, lift, ret, raise, assign_status_code, modify.
  simpl. by rewrite Hinfo.
Qed.

(** When JSON was not asked for, a 2xx response is handed back as it
    is, whatever its body says. *)
Lemma handle_response_raw (resp : http_response) (st : state) :
  is_2xx (status_code resp) ->
  handle_response false resp st = (Ok (Resp resp), st).
Proof. intros H2. unfold handle_response. by rewrite (is_2xx_test _ H2). Qed.

End Responses.

(** ** create (C4) *)

Section Create.
Context `{Platform}.
Import Service.

Lemma items_empty : items (∅ : pydict) = [].
Proof.
  apply Permutation_nil_r. rewrite (items_perm ∅). by rewrite map_to_list_empty.
Qed.

(** The envelope built from an empty mapping. *)
Lemma create_payload_empty :
  create_payload ∅ = "{" +:+ dquote +:+ "input" +:+ dquote +:+ ": {  }}".
Proof. unfold create_payload, get_payload. by rewrite items_empty. Qed.

(** C4, as the code has it: the guard is [object_data is None].  With
    no data [create] hands back its error object at once, no HTTP call
    is issued and nothing changes; a mapping, empty or not, is wrapped
    in the [input] envelope and POSTed: once the URL is built and a
    session is there, the call is issued, with the envelope as its
    body. *)
Theorem create_none_returns_error (st : state) :
  create None st = (Ok object_not_found, st) /\
  (forall d : pydict,
     create (Some d) st
     = request "POST" (uri st.1) true ∅ VNone VNone (VStr (create_payload d)) VNone ∅
         st) /\
  (forall (d : pydict) (u : string) (st1 : state),
     full_url st.1 (uri st.1) = Ok u ->
     ensure_session st = (Ok tt, st1) ->
     exists req,
       log (create (Some d) st).2.2 = (log st1.2 ++ [req])%list /\
       req_method req = "POST" /\
       req_url req = u /\
       req_data req = VStr (create_payload d)).
Proof.
  split; [reflexivity|]. split; [intros d; reflexivity|].
  intros d u st1 Hu Hs.
  destruct (request_log "POST" (uri st.1) true ∅ VNone VNone
              (VStr (create_payload d)) VNone ∅ st st1 u Hu Hs) as [_ Hlog].
  eexists. split; [exact Hlog|]. done.
Qed.

End Create.

(** ** Construction (C10) *)

Section Construction.
Context `{Platform}.
Import Service.





End Construction.

(** ** The router (C2, C8) *)

Section RouterFacts.
Context `{Platform}.
Import Router.

(** An unknown item name stops [init_item] at its first lookup. *)
Lemma init_item_unknown (item_name : string) (st : state) :
  item_map st.1 !! item_name = None ->
  init_item item_name st = (Raise (KeyError (VStr item_name)), st).
Proof.
  intros E. unfold init_item, lookup_item, bind, self, gets, raise. simpl.
  by rewrite E.
Qed.

(** C2, as the code has it: [item_map[item_name]] is looked up outside
    any [try], so for a name that is not in the item map [get_all],
    [get], [create], and [search] with a [criteria] key raise a
    [KeyError] and leave the router as it was; no object with
    [message_error] is returned.  [search] without that key never looks
    at the name and returns as for any other name. *)
Theorem unknown_item_raises_key_error (item_name : string) (st : state) :
  item_map st.1 !! item_name = None ->
  get_all item_name st = (Raise (KeyError (VStr item_name)), st) /\
  (forall item_id, get item_name item_id st = (Raise (KeyError (VStr item_name)), st)) /\
  (forall item_data,
     create item_name item_data st = (Raise (KeyError (VStr item_name)), st)) /\
  (forall (criteria : pydict) c,
     criteria !! "criteria" = Some c ->
     search item_name criteria st = (Raise (KeyError (VStr item_name)), st)) /\
  (forall (criteria : pydict),
     criteria !! "criteria" = None ->
     exists v, search item_name criteria st = (Ok v, st)).
Proof.
  intros E.
  assert (get_all item_name st = (Raise (KeyError (VStr item_name)), st)) as Hall.
  { unfold get_all, bind. by rewrite (init_item_unknown _ _ E). }
  split; [exact Hall|]. split; [|split; [|split]].
  - intros item_id. unfold get, bind. by rewrite (init_item_unknown _ _ E).
  - intros item_data. unfold create, bind. by rewrite (init_item_unknown _ _ E).
  - intros criteria c Hc. unfold search. rewrite Hc. unfold bind. by rewrite Hall.
  - intros criteria Hc. unfold search. rewrite Hc.
    destruct (criteria !! "metacriteria"); eexists; reflexivity.
Qed.

Lemma set_uri_same (c : Service.t) (u : option string) :
  Service.uri c = u -> Service.set_uri u c = c.
Proof. intros <-. by destruct c. Qed.

(** With a client in place [init_item] binds the path of the item, on
    the router and on the client, and touches nothing else. *)
Lemma init_item_rebinds (item_name path : string) (c : Service.t) (st : state) :
  api_rest st.1 = Some c ->
  Service.uri c = item_uri st.1 ->
  item_map st.1 !! item_name = Some path ->
  init_item item_name st
  = (Ok true,
     (with_api_rest (Some (Service.set_uri (Some path) c))
        (with_item_uri (Some path) st.1), st.2)).
Proof.
  intros Hc Huri Hmap. destruct st as [g w]. simpl in *.
  unfold init_item, lookup_item, bind, self, gets, ret. simpl. rewrite Hmap.
  case_bool_decide as Hdiff; simpl.
  - unfold set_item, lookup_item, bind, self, gets, update_self, modify, ret. simpl.
    rewrite Hmap. simpl. rewrite Hc. simpl.
    unfold set_api_uri, bind, self, gets, on_api_rest. simpl. by rewrite Hc.
  - rewrite Hc. simpl.
    rewrite (set_uri_same c (Some path)) by congruence.
    destruct g. simpl in *. subst. unfold with_api_rest, with_item_uri. simpl.
    by rewrite Hdiff.
Qed.

(** Readiness on a router that has a client, whatever the client is
    bound to: when the path of the item differs from [item_uri], the
    router and the client are bound to it; otherwise nothing changes.
    No call is issued. *)
Lemma init_item_ready (item_name path : string) (c : Service.t) (st : state) :
  api_rest st.1 = Some c ->
  item_map st.1 !! item_name = Some path ->
  init_item item_name st
  = (Ok true,
     if bool_decide (item_uri st.1 ≠ Some path)
     then (with_api_rest (Some (Service.set_uri (Some path) c))
             (with_item_uri (Some path) st.1), st.2)
     else st).
Proof.
  intros Hc Hmap. destruct st as [g w]. simpl in *.
  unfold init_item, lookup_item, bind, self, gets, ret. simpl. rewrite Hmap.
  case_bool_decide as Hdiff; simpl.
  - unfold set_item, lookup_item, bind, self, gets, update_self, modify, ret. simpl.
    rewrite Hmap. simpl. rewrite Hc. simpl.
    unfold set_api_uri, bind, self, gets, on_api_rest. simpl. by rewrite Hc.
  - by rewrite Hc.
Qed.

(** [Service.get_all] ends in the state its one [request] ends in. *)
Lemma service_get_all_state (st : Service.state) :
  (Service.get_all st).2
  = (Service.request "GET" (Service.uri st.1) false ∅ VNone VNone VNone VNone ∅ st).2.
Proof.
  unfold Service.get_all, bind, Service.self, gets, lift. simpl.
  by destruct (Service.request _ _ _ _ _ _ _ _ _ st) as [[res|e] st'].
Qed.


End RouterFacts.

(** ** Search (C7) *)

Module PyStrFacts.

Lemma append_cons (a : ascii) (s t : string) :
  String a s +:+ t = String a (s +:+ t).
Proof. reflexivity. Qed.





End PyStrFacts.

Section Search.
Context `{Platform}.
Import Router.







(** An item that lacks the field of a criterion stops the search with a
    [KeyError], also when an earlier criterion selected it. *)
Lemma criterion_matches_missing_field (d c : pydict) (f v : string) :
  c !! "field" = Some (VStr f) ->
  c !! "value" = Some (VStr v) ->
  d !! f = None ->
  criterion_matches (VDict d) (VDict c) = Raise (KeyError (VStr f)).
Proof.
  intros Hf Hv Hd. unfold criterion_matches. simpl.
  rewrite Hv, Hf. simpl. by rewrite Hd.
Qed.

End Search.

(** ** More on cleaning and construction *)

Section CleaningAgain.
Context `{Platform}.
Import Service.

Lemma remove_null_idempotent (v : value) :
  _remove_null_values (_remove_null_values v) = _remove_null_values v.
Proof.
  destruct v; simpl; try done. f_equal.
  apply map_filter_id. intros k v Hk.
  apply map_lookup_filter_Some in Hk as [_ Hk]. exact Hk.
Qed.

Lemma cleanup_param_value_idempotent (v : value) :
  _cleanup_param_value (_cleanup_param_value v) = _cleanup_param_value v.
Proof. by destruct v. Qed.

(** Cleaning arguments that are clean changes nothing: what [request]
    sends for the arguments it has cleaned is what it sends for the
    arguments themselves. *)
Theorem clean_arguments_idempotent (params json_arg data files : value) :
  let args := clean_arguments params json_arg data files in
  clean_arguments (c_params args) (c_json args) (c_data args) (c_files args) = args.
Proof.
  unfold clean_arguments. simpl. rewrite !remove_null_idempotent. f_equal.
  destruct params as [| | | | |d]; simpl; try done. f_equal.
  rewrite map_filter_id.
  - rewrite <- map_fmap_compose. apply map_fmap_ext. intros k v _. simpl.
    apply cleanup_param_value_idempotent.
  - intros k v Hk. apply clean_params_lookup in Hk as (v0 & _ & Hv0 & ->).
    unfold not_null. simpl. apply is_none_false. by rewrite cleanup_param_value_none.
Qed.

End CleaningAgain.

Section ConstructionAgain.
Context `{Platform}.
Import Service.

(** A token together with a user name or a password is refused before
    anything else is looked at: the app token, the placeholders and the
    environment play no part. *)
Theorem init_conflicting_credentials
    (url_apirest token_app : value) (uri : option string)
    (username password token_auth : value)
    (use_vcap_services : bool) (vcap_services_name : option string) :
  token_auth ≠ VNone ->
  username ≠ VNone \/ password ≠ VNone ->
  __init__ url_apirest token_app uri username password token_auth
    use_vcap_services vcap_services_name
  = Raise (GlpiInvalidArgument conflicting_credentials).
Proof.
  intros Ht Hup. unfold __init__, choose_credentials.
  apply is_none_false in Ht. rewrite Ht. simpl.
  destruct Hup as [Hu | Hp].
  - apply is_none_false in Hu. by rewrite Hu.
  - apply is_none_false in Hp. rewrite Hp. by rewrite orb_true_r.
Qed.

Lemma choose_credentials_fields (username password token_auth : value) (s0 s1 : t) :
  choose_credentials username password token_auth s0 = Ok s1 ->
  url s1 = url s0 /\ app_token s1 = app_token s0 /\ uri s1 = uri s0 /\
  session s1 = session s0.
Proof.
  unfold choose_credentials.
  destruct (negb (is_none token_auth)).
  - destruct (_ || _); [done|]. by intros [= <-].
  - by intros [= <-].
Qed.

Lemma take_credential_fields (c : pydict) (k : string) (setter : value -> t -> t) (s : t) :
  (forall v s, uri (setter v s) = uri s /\ session (setter v s) = session s) ->
  uri (take_credential c k setter s) = uri s /\
  session (take_credential c k setter s) = session s.
Proof. intros Hset. unfold take_credential. destruct (c !! k); [apply Hset|done]. Qed.

Lemma vcap_credentials_fields (use_vcap_services : bool) (name : option string)
    (s1 s2 : t) :
  vcap_credentials use_vcap_services name s1 = Ok s2 ->
  uri s2 = uri s1 /\ session s2 = session s1.
Proof.
  unfold vcap_credentials. destruct (wants_vcap _ _); [|by intros [= <-]].
  destruct (load_from_vcap_services name) as [creds|e]; simpl; [|done].
  destruct creds as [| | | | |c]; try by intros [= <-].
  destruct (c !! "url") as [u|]; [|done]. intros [= <-].
  repeat (match goal with
          | |- context [take_credential ?c ?k ?f ?s] =>
              let Hu := fresh in let Hs := fresh in
              destruct (take_credential_fields c k f s) as [Hu Hs];
              [by intros ? ?|]; rewrite Hu, Hs; clear Hu Hs
          end).
  done.
Qed.

(** A client that the constructor builds has an app token, has a token
    or both a user name and a password, holds no session yet, and is
    bound to the path it was given. *)
Theorem init_builds_usable_client
    (url_apirest token_app : value) (uri0 : option string)
    (username0 password0 token_auth0 : value)
    (use_vcap_services : bool) (vcap_services_name : option string) (s : t) :
  __init__ url_apirest token_app uri0 username0 password0 token_auth0
    use_vcap_services vcap_services_name = Ok s ->
  app_token s ≠ VNone /\
  (token_auth s ≠ VNone \/ (username s ≠ VNone /\ password s ≠ VNone)) /\
  session s = VNone /\
  uri s = uri0.
Proof.
  unfold __init__.
  destruct (choose_credentials _ _ _ _) as [s1|e] eqn:E1; simpl; [|done].
  destruct (vcap_credentials _ _ s1) as [s2|e] eqn:E2; simpl; [|done].
  unfold check_credentials, lacks_app_token, lacks_credentials.
  destruct (is_none (app_token s2)) eqn:Ea; [done|].
  destruct ((is_none (username s2) || is_none (password s2))
            && is_none (token_auth s2)) eqn:Ec; [done|].
  intros [= <-].
  apply choose_credentials_fields in E1 as (_ & _ & Hu1 & Hs1).
  apply vcap_credentials_fields in E2 as [Hu2 Hs2].
  split; [by apply is_none_false|]. split.
  - apply andb_false_iff in Ec as [Ec | Ec].
    + right. apply orb_false_iff in Ec as [? ?]. by rewrite <- !is_none_false.
    + left. by apply is_none_false.
  - simpl in *. split; congruence.
Qed.

(** Credentials of the caller come first: with a usable token, or with
    no token and a usable user name, the environment is not read and
    the outcome is that of a call with [use_vcap_services] off. *)
Theorem init_explicit_credentials_first
    (url_apirest token_app : value) (uri : option string)
    (username password token_auth : value)
    (use_vcap_services : bool) (vcap_services_name : option string) :
  explicit_credentials username token_auth ->
  __init__ url_apirest token_app uri username password token_auth
    use_vcap_services vcap_services_name
  = __init__ url_apirest token_app uri username password token_auth
      false vcap_services_name.
Proof.
  intros Hx. unfold __init__.
  destruct (choose_credentials _ _ _ _) as [s1|e] eqn:E1; simpl; [|done].
  f_equal. unfold vcap_credentials.
  assert (wants_vcap use_vcap_services s1 = false) as ->; [|done].
  unfold wants_vcap. unfold choose_credentials in E1.
  destruct Hx as [[Ht Hp] | (-> & Hu & Hp)].
  - assert (is_none token_auth = false) as Hn by (by destruct token_auth).
    rewrite Hn in E1. simpl in E1.
    destruct (_ || _); [done|]. injection E1 as <-.
    unfold set_token_auth. simpl.
    assert (eq_str token_auth "YOUR AUTH TOKEN" = false) as ->.
    { destruct token_auth; try done. simpl. apply bool_decide_eq_false. congruence. }
    rewrite Ht. simpl. by rewrite andb_false_r.
  - simpl in E1. injection E1 as <-. unfold set_username_and_password. simpl.
    assert (eq_str username "YOUR SERVICE USERNAME" = false) as ->.
    { destruct username; try done. simpl. apply bool_decide_eq_false. congruence. }
    rewrite Hu. simpl. by rewrite andb_false_r.
Qed.

End ConstructionAgain.

(** ** Sessions *)

Section Sessions.
Context `{Platform}.
Import Service.

(** The token of the response is stored, whatever the status code of
    the response: one GET to [<url>/initSession] is issued. *)
Theorem set_session_token_stores
    (s : t) (w : world) (base : string) (r : http_response) (tok : value) :
  url s = VStr base ->
  transport (log w) (init_session_request (base +:+ "/initSession") s) = Ok r ->
  session_token_of r = Ok tok ->
  set_session_token (s, w)
  = (Ok true,
     (with_session tok s,
      {| log := log w ++ [init_session_request (base +:+ "/initSession") s];
         stdout := stdout w; response := Some r |})).
Proof.
  intros Hurl Ht Htok. unfold set_session_token, bind, self, gets, lift, http. simpl.
  rewrite Hurl. simpl. rewrite Ht. simpl.
  unfold try_except, bind, lift, response_json, update_self, modify, ret. simpl.
  unfold session_token_of in Htok.
  destruct (json r) as [body|]; simpl in *; [|done]. by rewrite Htok.
Qed.

(** A response without a token leaves the client without a session: the
    failure is raised wrapped; a failure of the transport is raised as
    it is.  The call stays in the log in both cases. *)
Theorem set_session_token_fails (s : t) (w : world) (base : string) :
  url s = VStr base ->
  let req := init_session_request (base +:+ "/initSession") s in
  (forall r e,
     transport (log w) req = Ok r ->
     session_token_of r = Raise e ->
     set_session_token (s, w)
     = (Raise (WrappedException "Unable to init session in GLPI server: " e),
        (s, {| log := log w ++ [req]; stdout := stdout w; response := Some r |}))) /\
  (forall e,
     transport (log w) req = Raise e ->
     set_session_token (s, w)
     = (Raise e, (s, {| log := log w ++ [req]; stdout := stdout w;
                        response := response w |}))).
Proof.
  intros Hurl req. split.
  - intros r e Ht Htok. unfold set_session_token, bind, self, gets, lift, http. simpl.
    rewrite Hurl. simpl. fold req. rewrite Ht. simpl.
    unfold try_except, bind, lift, response_json, raise. simpl.
    unfold session_token_of in Htok.
    destruct (json r) as [body|]; simpl in *.
    + by rewrite Htok.
    + by injection Htok as <-.
  - intros e Ht. unfold set_session_token, bind, self, gets, lift, http. simpl.
    rewrite Hurl. simpl. fold req. by rewrite Ht.
Qed.

(** [set_session_token] returns [True] or raises. *)
Lemma set_session_token_true (st st1 : state) (b : bool) :
  set_session_token st = (Ok b, st1) -> b = true.
Proof.
  unfold set_session_token, bind, self, gets, lift, http. simpl.
  destruct (concat _ _); simpl; [|done].
  destruct (transport _ _) as [r|e]; simpl; [|done].
  unfold try_except, bind, lift, update_self, modify, ret, raise. simpl.
  destruct (response_json r); simpl; [|done].
  destruct (Py.getitem _ _); simpl; [|done]. by intros [= <- _].
Qed.

(** What [get_session_token] returns is the token the client holds
    afterwards. *)
Lemma get_session_token_result (st st1 : state) (tok : value) :
  get_session_token st = (Ok tok, st1) -> session st1.1 = tok.
Proof.
  unfold get_session_token, bind, self, gets, ret. simpl.
  destruct (negb (is_none (session st.1))); simpl; [by intros [= <- <-]|].
  destruct (set_session_token st) as [[b|e] st2] eqn:E; simpl; [|done].
  apply set_session_token_true in E as ->. by intros [= <- <-].
Qed.

(** Once [get_session_token] has returned a token, asking again returns
    the same token and issues no call. *)
Theorem get_session_token_idempotent (st st1 : state) (tok : value) :
  get_session_token st = (Ok tok, st1) ->
  tok ≠ VNone ->
  get_session_token st1 = (Ok tok, st1).
Proof.
  intros Hget Htok. apply get_session_token_result in Hget.
  unfold get_session_token, bind, self, gets, ret. simpl. rewrite Hget.
  apply is_none_false in Htok. by rewrite Htok.
Qed.

(** When no token is cached and none can be obtained, [request] raises
    the failure wrapped once more and stops: the one call in the log is
    the session-init call, no call for the item is issued. *)
Theorem request_without_session_stops
    method url accept_json headers params json_arg data files kwargs
    (s : t) (w : world) (u : string) (e : exn) (st1 : state) :
  session s = VNone ->
  full_url s url = Ok u ->
  set_session_token (s, w) = (Raise e, st1) ->
  request method url accept_json headers params json_arg data files kwargs (s, w)
  = (Raise (WrappedException "Unable to get Session token. ERROR: " e), st1) /\
  exists base,
    Service.url s = VStr base /\
    log st1.2 = (log w ++ [init_session_request (base +:+ "/initSession") s])%list.
Proof.
  intros Hsess Hu Hset. split.
  - unfold request, bind at 1 2 3, self, gets, lift. simpl. rewrite Hu.
    unfold ensure_session, try_except, bind, self, gets, raise. simpl.
    rewrite Hsess. simpl. by rewrite Hset.
  - unfold full_url, concat in Hu.
    destruct (Service.url s) as [| | |base| |] eqn:Hurl; try done.
    exists base. split; [done|].
    revert Hset. unfold set_session_token, bind, self, gets, lift, http. simpl.
    rewrite Hurl. simpl.
    destruct (transport _ _) as [r|e0]; simpl; [|by intros [= _ <-]].
    unfold try_except, bind, lift, response_json, update_self, modify, ret, raise.
    simpl. destruct (json r) as [body|]; simpl; [|by intros [= _ <-]].
    destruct (Py.getitem body "session_token"); simpl; [done|by intros [= _ <-]].
Qed.

End Sessions.

(** ** Outcomes of a request *)

Module PyStrMore.

Lemma append_assoc (a b c : string) : (a +:+ b) +:+ c = a +:+ (b +:+ c).
Proof.
  induction a as [|x a IH]; [done|].
  rewrite !PyStrFacts.append_cons. by rewrite IH.
Qed.

Lemma append_empty (a : string) : a +:+ EmptyString = a.
Proof. induction a as [|x a IH]; [done|]. by rewrite PyStrFacts.append_cons, IH. Qed.

End PyStrMore.

Section Outcomes.
Context `{Platform}.
Import Service.

(** Once the transport has answered, [request] is [handle_response] on
    that answer. *)
Lemma request_answered
    method url accept_json headers params json_arg data files kwargs
    (st st1 : state) (u : string) (resp : http_response) :
  full_url st.1 url = Ok u ->
  ensure_session st = (Ok tt, st1) ->
  transport (log st1.2)
    (issued method u accept_json headers params json_arg data files kwargs st1.1)
  = Ok resp ->
  request method url accept_json headers params json_arg data files kwargs st
  = handle_response accept_json resp
      (st1.1,
       {| log := log st1.2
                 ++ [issued method u accept_json headers params json_arg data files
                       kwargs st1.1];
          stdout := stdout st1.2; response := Some resp |}).
Proof.
  intros Hu Hs Ht.
  rewrite (request_run _ _ _ _ _ _ _ _ _ _ _ _ Hu Hs).
  unfold bind, http. by rewrite Ht.
Qed.

(** A 401 gives the fixed message, whatever the body says and whether
    JSON was asked for or not. *)
Theorem request_unauthorized
    method url accept_json headers params json_arg data files kwargs
    (st st1 : state) (u : string) (resp : http_response) :
  full_url st.1 url = Ok u ->
  ensure_session st = (Ok tt, st1) ->
  transport (log st1.2)
    (issued method u accept_json headers params json_arg data files kwargs st1.1)
  = Ok resp ->
  status_code resp = 401 ->
  (request method url accept_json headers params json_arg data files kwargs st).1
  = Raise (GlpiException unauthorized).
Proof.
  intros Hu Hs Ht H401.
  rewrite (request_answered _ _ _ _ _ _ _ _ _ _ _ _ _ Hu Hs Ht).
  unfold handle_response. by rewrite H401.
Qed.

(** A 2xx response: without [accept_json] the response object is what
    comes back; with it, the parsed body comes back when it is an
    object that does not report [ERROR], and a body that is not JSON
    raises the [ValueError] of the parser, not a [GlpiException]. *)
Theorem request_success
    method url accept_json headers params json_arg data files kwargs
    (st st1 : state) (u : string) (resp : http_response) :
  full_url st.1 url = Ok u ->
  ensure_session st = (Ok tt, st1) ->
  transport (log st1.2)
    (issued method u accept_json headers params json_arg data files kwargs st1.1)
  = Ok resp ->
  is_2xx (status_code resp) ->
  let out := request method url accept_json headers params json_arg data files kwargs st in
  (accept_json = false -> out.1 = Ok (Resp resp)) /\
  (accept_json = true ->
   forall d : pydict,
     json resp = Some (VDict d) ->
     (forall v, d !! "status" = Some v -> v ≠ VStr "ERROR") ->
     out.1 = Ok (Val (VDict d))) /\
  (accept_json = true -> json resp = None -> out.1 = Raise ValueError).
Proof.
  intros Hu Hs Ht H2 out. unfold out.
  rewrite (request_answered _ _ _ _ _ _ _ _ _ _ _ _ _ Hu Hs Ht).
  unfold handle_response. rewrite (is_2xx_test _ H2).
  split; [|split].
  - by intros ->.
  - intros -> d Hbody Hstatus. unfold response_json. rewrite Hbody.
    unfold bind, lift, ret. simpl.
    destruct (d !! "status") as [v|] eqn:Ev; simpl; [|done].
    assert (eq_str v "ERROR" = false) as ->; [|done].
    destruct v; try done. simpl. apply bool_decide_eq_false.
    intros ->. by apply (Hstatus (VStr "ERROR")).
  - intros -> Hbody. unfold response_json. by rewrite Hbody.
Qed.

(** For an error body whose fields are strings, the message is built
    from the first of [error], [error_message], [msg] and [statusInfo]
    that is present, then the description if there is one, then the
    status code. *)
Theorem get_error_message_composed (resp : http_response) (d : pydict) :
  json resp = Some (VDict d) ->
  text_fields d ->
  _get_error_message resp = composed_message d (status_code resp).
Proof.
  intros Hbody Htext.
  assert (forall k, k ∈ ["error"; "error_message"; "msg"; "statusInfo"; "description"] ->
            d !! k = None \/ exists s, d !! k = Some (VStr s)) as Hk.
  { intros k Hin. destruct (d !! k) as [v|] eqn:E; [|by left].
    right. destruct (Htext k v Hin E) as [s ->]. by exists s. }
  unfold _get_error_message, response_json. rewrite Hbody.
  unfold composed_message, first_text, error_message_head, error_message_description.
  simpl.
  assert (forall k, In k ["error"; "error_message"; "msg"; "statusInfo"; "description"] ->
            d !! k = None \/ exists s, d !! k = Some (VStr s)) as Hk'.
  { intros k Hin. apply Hk. by apply list_elem_of_In. }
  destruct (Hk' "error") as [He | [se He]]; [simpl; tauto| |];
  (destruct (Hk' "error_message") as [Hm | [sm Hm]]; [simpl; tauto| |]);
  (destruct (Hk' "msg") as [Hg | [sg Hg]]; [simpl; tauto| |]);
  (destruct (Hk' "statusInfo") as [Hi | [si Hi]]; [simpl; tauto| |]);
  (destruct (Hk' "description") as [Hd | [sd Hd]]; [simpl; tauto| |]);
  rewrite ?He, ?Hm, ?Hg, ?Hi, ?Hd; simpl;
  repeat (rewrite bool_decide_true by eauto; simpl);
  repeat (rewrite bool_decide_false by (by intros [? ?]); simpl);
  repeat (rewrite bool_decide_true by eauto; simpl);
  rewrite ?PyStrMore.append_assoc; reflexivity.
Qed.

End Outcomes.

(** ** The payload of [create] *)

Section Payload.
Context `{Platform}.
Import Service.

Lemma payload_step_render (data_str : string) (kv : string * value) :
  payload_step data_str kv
  = (if bool_decide (data_str = EmptyString) then data_str else data_str +:+ ",")
    +:+ render_entry kv.
Proof.
  unfold payload_step, render_entry.
  destruct (eq_str kv.2 null_str); [done|]. by destruct kv.2.
Qed.

Lemma render_entry_not_empty (kv : string * value) : render_entry kv ≠ EmptyString.
Proof.
  unfold render_entry. destruct (eq_str kv.2 null_str); [done|]. by destruct kv.2.
Qed.

Lemma append_not_empty (a b : string) : a ≠ EmptyString -> a +:+ b ≠ EmptyString.
Proof. by destruct a. Qed.

Lemma foldl_payload_step (l : list (string * value)) (acc : string) :
  acc ≠ EmptyString ->
  foldl payload_step acc l
  = match l with
    | [] => acc
    | _ => acc +:+ "," +:+ join_commas (render_entry <$> l)
    end.
Proof.
  revert acc. induction l as [|kv l IH]; intros acc Hacc; [done|].
  simpl. rewrite payload_step_render. rewrite bool_decide_false by done.
  rewrite IH by (by apply append_not_empty, append_not_empty).
  destruct l as [|kv' l]; simpl; by rewrite !PyStrMore.append_assoc.
Qed.

(** [get_payload] is the entries of the mapping, each rendered on its
    own, joined by commas: no comma leads or trails, and the empty
    mapping gives the empty string. *)
Theorem get_payload_joined (data_req : pydict) :
  get_payload data_req = join_commas (render_entry <$> items data_req).
Proof.
  unfold get_payload. destruct (items data_req) as [|kv l]; [done|].
  simpl. rewrite payload_step_render. simpl.
  rewrite foldl_payload_step by apply render_entry_not_empty.
  by destruct l.
Qed.

End Payload.

(** ** More on the router *)

Section RouterAgain.
Context `{Platform}.
Import Router.

(** The client of a router once readiness for an item has run: bound
    to the path of the item when the router had to switch, as it was
    otherwise. *)
Lemma rebound_uri (path : string) (c : Service.t) (g : t) :
  item_uri g ≠ Some path \/ Service.uri c = item_uri g ->
  Service.uri_str (rebound g path c) = path.
Proof.
  unfold rebound, Service.uri_str. intros Hcase.
  case_bool_decide as Hdiff; [done|].
  destruct Hcase as [? | Huri]; [done|]. by rewrite Huri, Hdiff.
Qed.

Lemma init_item_rebound (item_name path : string) (c : Service.t) (st : state) :
  api_rest st.1 = Some c ->
  item_map st.1 !! item_name = Some path ->
  exists g',
    init_item item_name st = (Ok true, (g', st.2)) /\
    api_rest g' = Some (rebound st.1 path c) /\
    item_uri g' = Some path.
Proof.
  intros Hc Hmap. rewrite (init_item_ready item_name path c st Hc Hmap).
  unfold rebound. destruct st as [g w]. simpl in *.
  case_bool_decide as Hdiff; eexists; (split; [reflexivity|]); by split.
Qed.

(** An identifier that is not an integer is answered with an error
    object and no HTTP call, on any router that has a client.  The
    message names the path the client is bound to once readiness has
    run: the path of the item when the router had to switch item or
    its client was bound to what the router holds, the client's own
    path otherwise (after a [set_item] from outside). *)
Theorem router_get_non_integer
    (item_name path : string) (item_id : value) (c : Service.t) (st : state) :
  api_rest st.1 = Some c ->
  item_map st.1 !! item_name = Some path ->
  Service.as_int item_id = None ->
  let c' := rebound st.1 path c in
  let out := get item_name item_id st in
  out.1 = Ok (VDict {["error_message" :=
                      VStr ("Unale to get " +:+ Service.uri_str c' +:+ " ID ["
                            +:+ Service.py_str item_id +:+ "]")]}) /\
  out.2.2 = st.2 /\
  api_rest out.2.1 = Some c' /\
  item_uri out.2.1 = Some path /\
  (item_uri st.1 ≠ Some path \/ Service.uri c = item_uri st.1 ->
   Service.uri_str c' = path).
Proof.
  intros Hc Hmap Hid c' out.
  destruct (init_item_rebound item_name path c st Hc Hmap) as (g' & Hready & Hc' & Hu').
  unfold out, get, bind. rewrite Hready. unfold on_api_rest. simpl. rewrite Hc'.
  fold c'. unfold Service.get, bind, Service.self, gets, ret. simpl. rewrite Hid.
  simpl. repeat split; [done|]. apply rebound_uri.
Qed.

Lemma service_search_options_request (item_name : string) (st : Service.state) :
  Service.search_options item_name st
  = Service.request "GET" (Some (Service.uri_str st.1 +:+ "/" +:+ item_name)) true ∅
      VNone VNone VNone VNone ∅ st.
Proof. reflexivity. Qed.

(** On a router whose client holds a session token and a string url,
    [search_options] binds the router to [listSearchOptions], whatever
    item is asked about, and issues one GET to
    [<url><uri>/<item_name>]; the item name need not be in the item
    map.  [<uri>] is the path the client is bound to once readiness has
    run: the path of [listSearchOptions] when the router had to switch
    or its client was bound to what the router holds, the client's own
    path otherwise. *)
Theorem search_options_request
    (item_name path base : string) (c : Service.t) (st : state) :
  api_rest st.1 = Some c ->
  is_none (Service.session c) = false ->
  Service.url c = VStr base ->
  item_map st.1 !! "listSearchOptions" = Some path ->
  let c' := rebound st.1 path c in
  let out := search_options item_name st in
  item_uri out.2.1 = Some path /\
  api_rest out.2.1 = Some c' /\
  exists req,
    log out.2.2 = (log st.2 ++ [req])%list /\
    req_method req = "GET" /\
    req_url req = base +:+ Service.uri_str c' +:+ "/" +:+ item_name /\
    (item_uri st.1 ≠ Some path \/ Service.uri c = item_uri st.1 ->
     req_url req = base +:+ path +:+ "/" +:+ item_name).
Proof.
  intros Hc Hsess Hurl Hmap c' out.
  destruct (init_item_rebound "listSearchOptions" path c st Hc Hmap)
    as (g' & Hready & Hc' & Hu').
  unfold out, search_options, bind. rewrite Hready. unfold on_api_rest. simpl.
  rewrite Hc'. fold c'.
  rewrite (service_search_options_request item_name (c', st.2)).
  assert (Service.url c' = VStr base /\ Service.session c' = Service.session c)
    as [Hurl' Hsess'].
  { unfold c', rebound. by case_bool_decide. }
  pose proof (request_log "GET" (Some (Service.uri_str c' +:+ "/" +:+ item_name)) true ∅
                VNone VNone VNone VNone ∅ (c', st.2) (c', st.2)
                (base +:+ Service.uri_str c' +:+ "/" +:+ item_name)) as Hlog.
  simpl in Hlog. unfold Service.full_url in Hlog. simpl in Hlog.
  rewrite Hurl' in Hlog.
  assert (is_none (Service.session c') = false) as Hcached by (by rewrite Hsess').
  specialize (Hlog eq_refl (ensure_session_cached (c', st.2) Hcached)).
  destruct Hlog as [Hself Hlog].
  destruct (Service.request _ _ _ _ _ _ _ _ _ _) as [res [c2 w2]]. simpl in *.
  subst c2. split; [done|]. split; [done|].
  eexists. split; [exact Hlog|]. split; [done|]. split; [done|].
  intros Hcase. pose proof (rebound_uri path c st.1 Hcase) as Hpath.
  fold c' in Hpath. simpl. by rewrite Hpath.
Qed.

(** With nothing to match, nothing is found: no criteria select no
    item, whatever the items are, and no item gives the empty list,
    whatever the criteria are. *)
Theorem search_criteria_nothing_to_match (data : list value) (criteria : value) :
  search_criteria (VList data) (VList []) = Ok (VList []) /\
  search_criteria (VList []) criteria = Ok (VList []).
Proof.
  split; [|done]. unfold search_criteria. simpl.
  assert (forall results, search_loop data (VList []) results = Ok results) as ->; [|done].
  induction data as [|d data IH]; intros results; simpl; [done|]. apply IH.
Qed.

End RouterAgain.

(** ** The router and its client *)

Section RouterClient.
Context `{Platform}.
Import Router.

Lemma with_item_uri_same (g : t) (u : option string) :
  item_uri g = u -> with_item_uri u g = g.
Proof. intros <-. by destruct g. Qed.

Lemma with_api_rest_same (g : t) (a : option Service.t) :
  api_rest g = a -> with_api_rest a g = g.
Proof. intros <-. by destruct g. Qed.

(** The constructor of the client, as [init_api] calls it. *)
Lemma init_with_token (g : t) (path : string) :
  usable_token (auth_token g) ->
  app_token g ≠ VNone ->
  Service.__init__ (url g) (app_token g) (Some path) VNone VNone (auth_token g) false None
  = Ok (client_of g path).
Proof.
  intros [Hn Hp] Happ. unfold Service.__init__, Service.choose_credentials.
  apply is_none_false in Hn, Happ. rewrite Hn. simpl.
  unfold Service.set_token_auth.
  assert (eq_str (auth_token g) "YOUR AUTH TOKEN" = false) as ->.
  { destruct (auth_token g); try done. simpl. apply bool_decide_eq_false. congruence. }
  unfold Service.check_credentials, Service.lacks_app_token, Service.lacks_credentials.
  simpl. rewrite Happ, Hn. simpl. done.
Qed.

Lemma init_without_token (g : t) (path : string) :
  auth_token g = VNone ->
  exists msg,
    Service.__init__ (url g) (app_token g) (Some path) VNone VNone (auth_token g)
      false None
    = Raise (GlpiException msg).
Proof.
  intros ->. unfold Service.__init__, Service.choose_credentials. simpl.
  unfold Service.check_credentials, Service.lacks_app_token, Service.lacks_credentials.
  simpl. destruct (is_none (app_token g)); eauto.
Qed.

(** [init_item] on a router without a client, read off the outcome of
    [init_api] on the router bound to the item. *)
Lemma init_item_first (item_name path : string) (g : t) (w : world) :
  api_rest g = None ->
  item_map g !! item_name = Some path ->
  init_item item_name (g, w)
  = match init_api (with_item_uri (Some path) g, w) with
    | (Ok _, st2) =>
        if bool_decide (item_uri g ≠ Some path)
        then bind set_api_uri (fun _ => ret true) st2
        else (Ok true, st2)
    | (Raise _, st2) => (Ok false, (st2.1, printed init_failed st2.2))
    end.
Proof.
  intros Hc Hmap.
  unfold init_item, lookup_item, bind at 1 2 3, self, gets, ret. simpl. rewrite Hmap.
  case_bool_decide as Hdiff; simpl.
  - unfold set_item, lookup_item, bind at 1 2 3 4 5, self, gets, update_self, modify, ret.
    simpl. rewrite Hmap. simpl. rewrite Hc.
    unfold try_except, bind at 1 2 3, print, modify, ret.
    destruct (init_api _) as [[v|e] st2]; simpl; [|done].
    unfold bind. by destruct (set_api_uri st2) as [[[]|e] st3].
  - unfold bind at 1. simpl. unfold bind at 1. simpl. rewrite Hc.
    rewrite (with_item_uri_same g (Some path) Hdiff).
    unfold try_except, bind, print, modify, ret.
    by destruct (init_api _) as [[v|e] st2].
Qed.

(** [get_session_token] changes no field of the client but the
    token. *)
Lemma get_session_token_fields (st : Service.state) :
  Service.uri (Service.get_session_token st).2.1 = Service.uri st.1.
Proof.
  unfold Service.get_session_token, bind at 1, Service.self, gets, ret. simpl.
  destruct (negb (is_none (Service.session st.1))); simpl; [done|].
  unfold bind.
  destruct (Service.set_session_token st) as [[b|e] st2] eqn:E; simpl.
  - assert (Service.uri st2.1 = Service.uri st.1) as Hu.
    { revert E. unfold Service.set_session_token, bind, Service.self, gets, lift,
        Service.http. simpl.
      destruct (Service.concat _ _); simpl; [|done].
      destruct (transport _ _) as [r|e]; simpl; [|done].
      unfold try_except, bind, lift, Service.update_self, modify, ret, raise. simpl.
      destruct (Service.response_json r); simpl; [|done].
      destruct (Py.getitem _ _); simpl; [|done]. by intros [= _ <-]. }
    by destruct b.
  - revert E. unfold Service.set_session_token, bind, Service.self, gets, lift,
      Service.http. simpl.
    destruct (Service.concat _ _); simpl; [|by intros [= _ <-]].
    destruct (transport _ _) as [r|e0]; simpl; [|by intros [= _ <-]].
    unfold try_except, bind, lift, Service.update_self, modify, ret, raise. simpl.
    destruct (Service.response_json r); simpl; [|by intros [= _ <-]].
    destruct (Py.getitem _ _); simpl; [done|by intros [= _ <-]].
Qed.

(** [init_api] on a router bound to a path, step by step: the client is
    built, kept, and asked for its session token. *)
Lemma init_api_steps (g : t) (w : world) (path : string) :
  item_uri g = Some path ->
  init_api (g, w)
  = match Service.__init__ (url g) (app_token g) (Some path) VNone VNone
            (auth_token g) false None with
    | Raise e => (Raise e, (g, w))
    | Ok c0 =>
        match Service.get_session_token (c0, w) with
        | (Ok tok, (c1, w1)) =>
            (Ok (if negb (is_none tok) then VDict {["session_token" := tok]}
                 else message_error "Unable to InitSession in GLPI Server."),
             (with_api_session tok (with_api_rest (Some c1) g), w1))
        | (Raise e, (c1, w1)) => (Raise e, (with_api_rest (Some c1) g, w1))
        end
    end.
Proof.
  intros Huri. unfold init_api, bind at 1, self, gets. simpl. rewrite Huri.
  unfold bind at 1, lift.
  destruct (Service.__init__ _ _ _ _ _ _ _ _) as [c0|e]; simpl; [|done].
  unfold bind at 1, update_self, modify. simpl.
  unfold bind at 1, on_api_rest. simpl.
  destruct (Service.get_session_token (c0, w)) as [[tok|e] [c1 w1]]; simpl; [|done].
  unfold bind, update_self, modify, ret. simpl.
  by destruct (negb (is_none tok)).
Qed.

(** What [init_api] leaves behind on a router that is bound to a path
    and has no client: the binding, and no client or a client bound to
    that path. *)
Lemma init_api_state (g : t) (w : world) (path : string) :
  item_uri g = Some path ->
  api_rest g = None ->
  item_uri (init_api (g, w)).2.1 = Some path /\
  item_map (init_api (g, w)).2.1 = item_map g /\
  (api_rest (init_api (g, w)).2.1 = None \/
   exists c, api_rest (init_api (g, w)).2.1 = Some c /\ Service.uri c = Some path).
Proof.
  intros Huri Hc. rewrite (init_api_steps g w path Huri).
  destruct (Service.__init__ _ _ _ _ _ _ _ _) as [c0|e] eqn:E0; simpl;
    [|split; [done|]; split; [done|]; by left].
  apply init_builds_usable_client in E0 as (_ & _ & _ & Hu0).
  pose proof (get_session_token_fields (c0, w)) as Hu1. simpl in Hu1.
  destruct (Service.get_session_token (c0, w)) as [[tok|e] [c1 w1]]; simpl in *;
    (split; [done|]; split; [done|]; right; exists c1; split; [done|congruence]).
Qed.

Lemma set_api_uri_steps (g : t) (w : world) :
  set_api_uri (g, w)
  = match api_rest g with
    | None => (Raise AttributeError, (g, w))
    | Some c => (Ok tt, (with_api_rest (Some (Service.set_uri (item_uri g) c)) g, w))
    end.
Proof.
  unfold set_api_uri, bind, self, gets, on_api_rest. simpl.
  by destruct (api_rest g).
Qed.

(** The router keeps its client bound to the path it holds: readiness
    for any item name, known or not, with or without a client, whatever
    the server answers, preserves it. *)
Theorem init_item_keeps_coherent (item_name : string) (st : state) :
  coherent st.1 ->
  coherent (init_item item_name st).2.1.
Proof.
  intros Hco. destruct st as [g w]. simpl in *.
  destruct (item_map g !! item_name) as [path|] eqn:Hmap.
  - destruct (api_rest g) as [c|] eqn:Hc.
    + rewrite (init_item_rebinds item_name path c (g, w) Hc (Hco c Hc) Hmap).
      simpl. intros c' [= <-]. done.
    + rewrite (init_item_first item_name path g w Hc Hmap).
      pose proof (init_api_state (with_item_uri (Some path) g) w path eq_refl Hc)
        as (Hu & _ & Ha).
      destruct (init_api _) as [[v|e] [g2 w2]]; simpl in *.
      * assert (coherent g2) as Hco2.
        { intros c' Hc'. destruct Ha as [Ha | (c & Ha & Hcu)]; congruence. }
        case_bool_decide; simpl; [|done].
        unfold bind. rewrite set_api_uri_steps.
        destruct (api_rest g2) as [c|] eqn:Hc2; simpl; [|exact Hco2].
        intros c' [= <-]. done.
      * intros c' Hc'. destruct Ha as [Ha | (c & Ha & Hcu)]; congruence.
  - by rewrite (init_item_unknown item_name (g, w) Hmap).
Qed.

End RouterClient.

(** ** The first call on a router *)

Section RouterFirstCall.
Context `{Platform}.
Import Router.

Lemma get_session_token_fresh (s : Service.t) (w : world) :
  Service.session s = VNone ->
  Service.get_session_token (s, w)
  = match Service.set_session_token (s, w) with
    | (Ok _, st1) => (Ok (Service.session st1.1), st1)
    | (Raise e, st1) => (Raise e, st1)
    end.
Proof.
  intros Hs. unfold Service.get_session_token, bind, Service.self, gets, ret. simpl.
  rewrite Hs. simpl.
  destruct (Service.set_session_token (s, w)) as [[b|e] st1] eqn:E; [|done].
  by apply set_session_token_true in E as ->.
Qed.

Lemma init_item_first_ok (item_name path : string) (g g2 : t) (w w2 : world)
    (v : value) (c : Service.t) :
  api_rest g = None ->
  item_map g !! item_name = Some path ->
  init_api (with_item_uri (Some path) g, w) = (Ok v, (g2, w2)) ->
  api_rest g2 = Some c ->
  Service.uri c = Some path ->
  item_uri g2 = Some path ->
  init_item item_name (g, w) = (Ok true, (g2, w2)).
Proof.
  intros Hc Hmap Hapi Hc2 Huri Hitem.
  rewrite (init_item_first item_name path g w Hc Hmap), Hapi.
  case_bool_decide; [|done].
  unfold bind. rewrite set_api_uri_steps, Hc2, Hitem. unfold ret.
  rewrite (set_uri_same c (Some path) Huri).
  by rewrite (with_api_rest_same g2 (Some c) Hc2).
Qed.

Lemma get_all_after_init (item_name : string) (st st1 : state) (b : bool) :
  init_item item_name st = (Ok b, st1) ->
  get_all item_name st
  = if b then on_api_rest Service.get_all st1
    else (Ok (message_error get_failed), st1).
Proof. intros E. unfold get_all, bind. rewrite E. by destruct b. Qed.

(** A router without an auth token fails softly: the client cannot be
    built, so the first operation prints the message, returns an error
    object and issues no HTTP call; the router is bound to the item and
    still has no client. *)
Theorem router_without_token_soft_fails
    (item_name path : string) (g : t) (w : world) :
  api_rest g = None ->
  item_map g !! item_name = Some path ->
  auth_token g = VNone ->
  get_all item_name (g, w)
  = (Ok (message_error get_failed),
     (with_item_uri (Some path) g, printed init_failed w)).
Proof.
  intros Hc Hmap Htok.
  assert (init_item item_name (g, w)
          = (Ok false, (with_item_uri (Some path) g, printed init_failed w))) as Hinit.
  { rewrite (init_item_first item_name path g w Hc Hmap).
    rewrite (init_api_steps (with_item_uri (Some path) g) w path eq_refl).
    destruct (init_without_token (with_item_uri (Some path) g) path Htok) as [msg ->].
    done. }
  by rewrite (get_all_after_init _ _ _ _ Hinit).
Qed.

(** The soft failure happens once.  When the server cannot be reached,
    the first operation on a router returns the error object, but it
    leaves the client in place; the next operation finds a client, goes
    on to [request], and raises. *)
Theorem router_soft_fails_once
    (item_name path base : string) (g : t) (w : world) (e0 : exn) :
  api_rest g = None ->
  item_map g !! item_name = Some path ->
  usable_token (auth_token g) ->
  app_token g ≠ VNone ->
  url g = VStr base ->
  (forall h r, transport h r = Raise e0) ->
  let out1 := get_all item_name (g, w) in
  let out2 := get_all item_name out1.2 in
  out1.1 = Ok (message_error get_failed) /\
  (exists c, api_rest out1.2.1 = Some c /\ Service.session c = VNone) /\
  out2.1 = Raise (WrappedException "Unable to get Session token. ERROR: " e0).
Proof.
  intros Hc Hmap Htok Happ Hurl Hdown out1 out2.
  set (g1 := with_item_uri (Some path) g).
  set (c0 := client_of g1 path).
  set (req0 := Service.init_session_request (base +:+ "/initSession") c0).
  assert (forall w0, Service.set_session_token (c0, w0)
          = (Raise e0, (c0, {| log := log w0 ++ [req0]; stdout := stdout w0;
                               response := response w0 |}))) as Hset.
  { intros w0.
    destruct (set_session_token_fails c0 w0 base Hurl) as [_ Hfail].
    apply Hfail, Hdown. }
  set (w1 := {| log := log w ++ [req0]; stdout := stdout w; response := response w |}).
  assert (init_item item_name (g, w)
          = (Ok false, (with_api_rest (Some c0) g1, printed init_failed w1))) as Hinit.
  { rewrite (init_item_first item_name path g w Hc Hmap).
    rewrite (init_api_steps g1 w path eq_refl).
    rewrite (init_with_token g1 path Htok Happ). fold c0.
    rewrite (get_session_token_fresh c0 w eq_refl), Hset. done. }
  assert (out1 = (Ok (message_error get_failed),
                  (with_api_rest (Some c0) g1, printed init_failed w1))) as Hout1.
  { unfold out1. by rewrite (get_all_after_init _ _ _ _ Hinit). }
  rewrite Hout1. simpl. split; [done|]. split; [by exists c0|].
  unfold out2. rewrite Hout1. simpl.
  set (st1 := (with_api_rest (Some c0) g1, printed init_failed w1)).
  pose proof (init_item_rebinds item_name path c0 st1 eq_refl eq_refl Hmap) as Hready.
  rewrite (get_all_after_init _ _ _ _ Hready).
  unfold on_api_rest. simpl.
  rewrite (set_uri_same c0 (Some path) eq_refl).
  unfold Service.get_all, bind at 1, Service.self, gets. simpl.
  destruct (request_without_session_stops "GET" (Some path) false ∅ VNone VNone VNone
              VNone ∅ c0 (printed init_failed w1) (base +:+ path) e0 _
              eq_refl ltac:(unfold Service.full_url; simpl; by rewrite Hurl)
              (Hset (printed init_failed w1))) as [Hreq _].
  unfold bind. rewrite Hreq. done.
Qed.

(** The first operation on a fresh router, when the server answers:
    [get_all] issues the session-init call and then the call for the
    item, which carries the token just obtained; the token is kept on
    the router and on its client. *)
Theorem router_first_call_opens_session
    (item_name path base : string) (g : t) (w : world)
    (r0 : http_response) (tok : value) :
  api_rest g = None ->
  item_map g !! item_name = Some path ->
  usable_token (auth_token g) ->
  app_token g ≠ VNone ->
  url g = VStr base ->
  transport (log w)
    (Service.init_session_request (base +:+ "/initSession")
       (client_of (with_item_uri (Some path) g) path)) = Ok r0 ->
  session_token_of r0 = Ok tok ->
  tok ≠ VNone ->
  let out := get_all item_name (g, w) in
  api_session out.2.1 = tok /\
  (exists c, api_rest out.2.1 = Some c /\ Service.session c = tok /\
             Service.uri c = Some path) /\
  exists req,
    log out.2.2
    = (log w ++ [Service.init_session_request (base +:+ "/initSession")
                   (client_of (with_item_uri (Some path) g) path); req])%list /\
    req_method req = "GET" /\
    req_url req = base +:+ path /\
    (forall s, tok = VStr s -> header "Session-Token" req = Some (VStr s)).
Proof.
  intros Hc Hmap Htok Happ Hurl Ht Hsession Hnone out.
  set (g1 := with_item_uri (Some path) g) in *.
  set (c0 := client_of g1 path) in *.
  set (req0 := Service.init_session_request (base +:+ "/initSession") c0) in *.
  set (w1 := {| log := log w ++ [req0]; stdout := stdout w; response := Some r0 |}).
  set (c1 := Service.with_session tok c0).
  set (g2 := with_api_session tok (with_api_rest (Some c1) g1)).
  assert (init_api (g1, w)
          = (Ok (if negb (is_none tok) then VDict {["session_token" := tok]}
                 else message_error "Unable to InitSession in GLPI Server."),
             (g2, w1))) as Hapi.
  { rewrite (init_api_steps g1 w path eq_refl).
    rewrite (init_with_token g1 path Htok Happ). fold c0.
    rewrite (get_session_token_fresh c0 w eq_refl).
    by rewrite (set_session_token_stores c0 w base r0 tok Hurl Ht Hsession). }
  pose proof (init_item_first_ok item_name path g g2 w w1 _ c1 Hc Hmap Hapi
                eq_refl eq_refl eq_refl) as Hinit.
  unfold out. rewrite (get_all_after_init _ _ _ _ Hinit).
  unfold on_api_rest. simpl.
  pose proof (service_get_all_state (c1, w1)) as Hstate.
  pose proof (request_log "GET" (Some path) false ∅ VNone VNone VNone VNone ∅
                (c1, w1) (c1, w1) (base +:+ path)) as Hlog.
  simpl in Hlog, Hstate. unfold Service.full_url in Hlog. simpl in Hlog.
  rewrite Hurl in Hlog.
  assert (is_none (Service.session c1) = false) as Hcached by (by apply is_none_false).
  specialize (Hlog eq_refl (ensure_session_cached (c1, w1) Hcached)).
  rewrite <- Hstate in Hlog. destruct Hlog as [Hself Hlog].
  destruct (Service.get_all (c1, w1)) as [res [c2 w2]]. simpl in *. subst c2.
  split; [done|]. split; [by exists c1|].
  eexists. split.
  { rewrite Hlog. by rewrite <- app_assoc. }
  repeat split. intros s ->. unfold header, Service.issued. simpl.
  edestruct (final_headers_not_written false (VStr s) (Service.app_token c0)
               (Service.input_headers ∅) "Session-Token") as (Hget & _ & _).
  { intros k v Hin. apply input_headers_lookup in Hin as [Hin _].
    by rewrite lookup_empty in Hin. }
  exact (Hget eq_refl).
Qed.

End RouterFirstCall.

(** ** Items *)

Section ItemFacts.
Context `{Platform}.
Import Item.

Lemma deref_store_same (k : string) (v : value) (st : state) :
  deref (data (store k v st).1) (store k v st).2
  = <[k := v]> (deref (data st.1) st.2).
Proof. unfold store, deref. simpl. by rewrite lookup_insert_eq. Qed.

(** An attribute that is set is read back, and setting it changes no
    other attribute. *)
Theorem set_attribute_get_attribute (attr attr' : string) (v : value) (st : state) :
  let st' := (set_attribute attr v st).2 in
  (get_attribute attr st').1 = Ok v /\
  (attr' ≠ attr -> (get_attribute attr' st').1 = (get_attribute attr' st).1) /\
  st'.1 = st.1.
Proof.
  unfold set_attribute, get_attribute, modify, gets. simpl.
  pose proof (deref_store_same attr v st) as E. simpl in E. rewrite E.
  split; [|split; [|done]].
  - by rewrite lookup_insert_eq.
  - intros Hne. by rewrite lookup_insert_ne.
Qed.

(** The loop of [set_attributes] over keys of the argument: the data
    end up with the entries of the argument for these keys and the old
    entries for the others, and no other dictionary changes. *)
Lemma set_attributes_loop (a : nat) (attrs : pydict) (keys : list string)
    (it : t) (h : gmap nat pydict) (old : pydict) :
  h !! a = Some attrs ->
  h !! data it = Some old ->
  (forall k, k ∈ keys -> is_Some (attrs !! k)) ->
  exists new,
    for_each keys (set_attributes_step a) (it, h) = (Ok tt, (it, <[data it := new]> h)) /\
    (<[data it := new]> h) !! a = Some attrs /\
    forall k, new !! k = if bool_decide (k ∈ keys) then attrs !! k else old !! k.
Proof.
  revert h old. induction keys as [|k keys IH]; intros h old Ha Hd Hkeys.
  - exists old. simpl. rewrite (insert_id h _ _ Hd). split; [done|]. split; [done|].
    done.
  - destruct (Hkeys k) as [v Hv]; [by left|].
    set (h1 := <[data it := <[k := v]> old]> h).
    assert (h1 !! a = Some attrs) as Ha1.
    { unfold h1. destruct (decide (data it = a)) as [E|NE].
      - rewrite E, lookup_insert_eq. rewrite E in Hd.
        assert (old = attrs) as -> by congruence. by rewrite insert_id.
      - by rewrite lookup_insert_ne. }
    destruct (IH h1 (<[k := v]> old) Ha1) as (new & Hrun & Hnew_a & Hnew).
    { unfold h1. by rewrite lookup_insert_eq. }
    { intros k' Hin. apply Hkeys. by right. }
    exists new. unfold h1 in Hrun, Hnew_a. rewrite insert_insert_eq in Hrun, Hnew_a.
    split; [|split; [done|]].
    + simpl. unfold bind, set_attributes_step at 1, store. simpl.
      unfold deref at 1. rewrite Ha. simpl. rewrite Hv.
      assert (deref (data it) h = old) as -> by (unfold deref; by rewrite Hd).
      by destruct (bool_decide _).
    + intros k'. rewrite Hnew.
      destruct (decide (k' = k)) as [->|NE].
      * rewrite (bool_decide_true (k ∈ k :: keys)) by (by left).
        case_bool_decide; [done|]. by rewrite lookup_insert_eq.
      * rewrite lookup_insert_ne by done.
        destruct (decide (k' ∈ keys)) as [Hin|Hnin].
        -- rewrite !bool_decide_true; [done|by right|done].
        -- rewrite !bool_decide_false; [done| |done].
           intros Hin. apply elem_of_cons in Hin as [?|?]; done.
Qed.

(** [set_attributes] merges: afterwards the data are the entries of the
    argument, and the old entries under the other keys.  The call
    returns nothing, also for an empty argument (a dictionary that is
    passed in is never the one the literal makes), and it leaves every
    other dictionary, the argument included, as it was. *)
Theorem set_attributes_merges (a : nat) (attrs old : pydict) (it : t) (h : gmap nat pydict) :
  h !! a = Some attrs ->
  h !! data it = Some old ->
  set_attributes a (it, h) = (Ok None, (it, <[data it := attrs ∪ old]> h)).
Proof.
  intros Ha Hd. unfold set_attributes. simpl.
  rewrite bool_decide_false; cycle 1.
  { intros E. apply (is_fresh (dom h)). rewrite <- E. apply elem_of_dom. eauto. }
  assert (deref a h = attrs) as -> by (unfold deref; by rewrite Ha).
  destruct (set_attributes_loop a attrs (items attrs).*1 it h old Ha Hd)
    as (new & Hrun & _ & Hnew).
  { intros k Hin. apply list_elem_of_fmap in Hin as ([k' v] & -> & Hin).
    apply elem_of_items in Hin. eauto. }
  unfold bind. rewrite Hrun. unfold ret. do 3 f_equal.
  apply map_eq. intros k. rewrite Hnew, lookup_union.
  case_bool_decide as Hin.
  - apply list_elem_of_fmap in Hin as ([k' v] & -> & Hin).
    apply elem_of_items in Hin. simpl. rewrite Hin. by destruct (old !! k').
  - destruct (attrs !! k) as [v|] eqn:E; [|by destruct (old !! k)].
    exfalso. apply Hin. apply list_elem_of_fmap. exists (k, v).
    split; [done|]. by apply elem_of_items.
Qed.

(** Items built without data share one dictionary: what one of them
    sets, the other reads.  [unset_attributes] ends the sharing for the
    item it is called on. *)
Theorem default_data_is_shared (attr : string) (v : value) (h : gmap nat pydict) (d0 : pydict) :
  h !! default_data = Some d0 ->
  let one := __init__ None in
  let other := __init__ None in
  (get_attribute attr (other, (set_attribute attr v (one, h)).2.2)).1 = Ok v /\
  let st1 := (unset_attributes (one, h)).2 in
  (get_attribute attr (other, (set_attribute attr v st1).2.2)).1
  = (get_attribute attr (other, h)).1.
Proof.
  intros Hd one other. split.
  - unfold set_attribute, get_attribute, modify, gets, store, deref. simpl.
    rewrite lookup_insert_eq. simpl. by rewrite lookup_insert_eq.
  - unfold unset_attributes, set_attribute, get_attribute, modify, gets, store, deref.
    simpl.
    assert (fresh (dom h) ≠ default_data) as Hne.
    { intros E. apply (is_fresh (dom h)). rewrite E. apply elem_of_dom. eauto. }
    by rewrite !lookup_insert_ne.
Qed.

(** After [unset_attributes] the item has no attribute: every read
    gives [None]; the dictionary it held before is left as it was, for
    whoever else holds it. *)
Theorem unset_attributes_clears (it : t) (h : gmap nat pydict) (old : pydict) :
  h !! data it = Some old ->
  let out := unset_attributes (it, h) in
  (exists l, out.1 = Ok l /\ data out.2.1 = l /\ deref l out.2.2 = ∅) /\
  (forall attr, (get_attribute attr out.2).1 = Ok VNone) /\
  out.2.2 !! data it = Some old.
Proof.
  intros Hd out.
  assert (fresh (dom h) ≠ data it) as Hne.
  { intros E. apply (is_fresh (dom h)). rewrite E. apply elem_of_dom. eauto. }
  unfold out, unset_attributes, get_attribute, gets, deref. simpl.
  split; [|split].
  - eexists. split; [done|]. split; [done|]. by rewrite lookup_insert_eq.
  - intros attr. by rewrite lookup_insert_eq.
  - by rewrite lookup_insert_ne.
Qed.

(** [get_stream] of an item is [get_payload] of its data: an item that
    [__init__] built renders as [create] renders the same mapping. *)
Theorem get_stream_is_get_payload (it : t) (h : gmap nat pydict) :
  null_str it = Service.null_str ->
  get_stream (it, h) = (Ok (Service.get_payload (deref (data it) h)), (it, h)).
Proof.
  intros Hn. unfold get_stream, gets, Service.get_payload. simpl. rewrite Hn.
  do 2 f_equal.
Qed.

End ItemFacts.

(** ** Concrete runs *)

(** C1, the claim as stated fails: a caller who passes [Session-Token]
    has its own value sent, not the cached token. *)
Lemma request_session_token_overridden :
  let P := platform_of (constant_server empty_list_200) in
  let st' := (@Service.request P "GET" (Some "/Ticket") false
                {["Session-Token" := VStr "forged"]}
                VNone VNone VNone VNone ∅ (client_with_session, world0)).2 in
  exists req,
    log st'.2 = [req] /\
    Service.session st'.1 = VStr "tok" /\
    header "Session-Token" req = Some (VStr "forged") /\
    header "Session-Token" req ≠ Some (Service.session st'.1).
Proof.
  vm_compute. eexists. split; [reflexivity|]. split; [reflexivity|].
  split; [reflexivity|]. intros [=].
Qed.

Lemma request_headers_caller_last_witness :
  let P := platform_of (constant_server empty_list_200) in
  let st := (client_with_session, world0) in
  let headers : pydict := {["User-Agent" := VStr "curl"]} in
  let st' := (@Service.request P "GET" (Some "/Ticket") false headers
                VNone VNone VNone VNone ∅ st).2 in
  exists req,
    log st'.2 = ([] ++ [req])%list /\
    (forall name,
       (forall k v, headers !! k = Some v -> v ≠ VNone ->
                    PyStr.lower k ≠ PyStr.lower name) ->
       (PyStr.lower name = "session-token" ->
        header name req = Some (Service.session st'.1)) /\
       (PyStr.lower name = "app-token" -> Service.app_token st'.1 ≠ VNone ->
        header name req = Some (Service.app_token st'.1)) /\
       (PyStr.lower name = "user-agent" ->
        header name req = Some (@Service.user_agent P))) /\
    (forall k v, headers !! k = Some v -> v ≠ VNone ->
       exists k' v', headers !! k' = Some v' /\ v' ≠ VNone /\
                     PyStr.lower k' = PyStr.lower k /\
                     header k req = Some v').
Proof.
  intros P st headers.
  apply (@request_headers_caller_last P "GET" (Some "/Ticket") false headers
           VNone VNone VNone VNone ∅ st st "http://glpi/apirest.php/Ticket");
    reflexivity.
Defined.

Lemma request_strips_nulls_and_booleans_witness :
  let P := platform_of (constant_server empty_list_200) in
  let st := (client_with_session, world0) in
  let params := VDict (<["is_deleted" := VBool false]> {["range" := VNone]}) in
  let st' := (@Service.request P "GET" (Some "/Ticket") false ∅ params
                VNone VNone VNone ∅ st).2 in
  exists req,
    log st'.2 = [req] /\
    req_params req = VDict {["is_deleted" := VStr "false"]}.
Proof.
  intros P st params.
  destruct (@request_strips_nulls_and_booleans P "GET" (Some "/Ticket") false ∅ params
              VNone VNone VNone ∅ st st "http://glpi/apirest.php/Ticket"
              eq_refl eq_refl) as (_ & _ & _ & _ & req & Hlog & Hparams & _).
  exists req. split; [exact Hlog|]. rewrite Hparams. vm_compute. reflexivity.
Defined.

Lemma request_drops_json_witness :
  let P := platform_of (constant_server empty_list_200) in
  let st := (client_with_session, world0) in
  let body := VDict {["name" := VStr "printer"]} in
  let st' := (@Service.request P "POST" (Some "/Ticket") false ∅ VNone
                body VNone VNone ∅ st).2 in
  exists req,
    log st'.2 = [req] /\ req_json req = VNone /\ req_data req = VNone.
Proof.
  intros P st body.
  destruct (@request_drops_json P "POST" (Some "/Ticket") false ∅ VNone
              body VNone VNone ∅ st st "http://glpi/apirest.php/Ticket"
              eq_refl eq_refl) as (_ & req & Hlog & Hjson & _ & _ & Hdata).
  exists req. split; [exact Hlog|]. split; [exact Hjson|]. by apply Hdata.
Defined.

(** C3, the claim as stated fails: the message of a 500 whose body is
    not JSON has no status code. *)
Lemma request_not_json_500_no_code :
  let P := platform_of (constant_server not_json_500) in
  let out := @Service.request P "GET" (Some "/Ticket") false ∅
               VNone VNone VNone VNone ∅ (client_with_session, world0) in
  out.1 = Raise (GlpiException "Unknown error") /\
  out.1 ≠ Raise (GlpiException "Unknown error, Code: 500").
Proof. vm_compute. split; [reflexivity|]. intros [=]. Qed.

Lemma request_not_json_error_message_witness :
  let P := platform_of (constant_server not_json_500) in
  (@Service.request P "GET" (Some "/Ticket") false ∅
     VNone VNone VNone VNone ∅ (client_with_session, world0)).1
  = Raise (GlpiException "Unknown error").
Proof.
  intros P.
  apply (@request_not_json_error_message P "GET" (Some "/Ticket") false ∅
           VNone VNone VNone VNone ∅ (client_with_session, world0)
           (client_with_session, world0) "http://glpi/apirest.php/Ticket" not_json_500);
    try reflexivity.
  - unfold is_2xx. simpl. lia.
  - simpl. lia.
Defined.

(** C5, the claim as stated fails: when JSON was not asked for, the
    same 2xx response is handed back and nothing is raised. *)
Lemma request_application_error_unchecked :
  let P := platform_of (constant_server (app_error_200 "invalid-app-token")) in
  let out := @Service.request P "GET" (Some "/Ticket") false ∅
               VNone VNone VNone VNone ∅ (client_with_session, world0) in
  out.1 = Ok (Resp (app_error_200 "invalid-app-token")) /\
  response out.2.2 = Some (app_error_200 "invalid-app-token").
Proof. vm_compute. split; reflexivity. Qed.

Lemma request_application_error_witness :
  let P := platform_of (constant_server (app_error_200 "invalid-app-token")) in
  let out := @Service.request P "GET" (Some "/Ticket") true ∅
               VNone VNone VNone VNone ∅ (client_with_session, world0) in
  out.1 = Raise (GlpiException "Error: invalid-app-token") /\
  response out.2.2 = Some (set_status_code 401 (app_error_200 "invalid-app-token")).
Proof.
  intros P.
  apply (@request_application_error P "GET" (Some "/Ticket") ∅
           VNone VNone VNone VNone ∅ (client_with_session, world0)
           (client_with_session, world0) "http://glpi/apirest.php/Ticket"
           (app_error_200 "invalid-app-token")
           (<["status" := VStr "ERROR"]> {["statusInfo" := VStr "invalid-app-token"]})
           "invalid-app-token");
    try reflexivity.
  unfold is_2xx. simpl. lia.
Defined.

(** C4, the claim as stated fails: an empty mapping is POSTed. *)
Lemma create_empty_mapping_posts :
  let P := platform_of (constant_server empty_list_200) in
  let out := @Service.create P (Some ∅) (client_with_session, world0) in
  exists req,
    log out.2.2 = [req] /\
    req_method req = "POST" /\
    req_data req = VStr ("{" +:+ Service.dquote +:+ "input" +:+ Service.dquote +:+ ": {  }}") /\
    out.1 = Ok (Val (VList [])).
Proof. vm_compute. eexists. repeat split. Qed.


(** C2, the claim as stated fails: an unknown item name raises. *)
Lemma get_all_unknown_item_raises :
  let P := platform_of (constant_server empty_list_200) in
  (@Router.get_all P "printer" (router_fresh, world0)).1
  = Raise (KeyError (VStr "printer")).
Proof. vm_compute. reflexivity. Qed.

Lemma unknown_item_raises_key_error_witness :
  let P := platform_of (constant_server empty_list_200) in
  @Router.get_all P "printer" (router_fresh, world0)
  = (Raise (KeyError (VStr "printer")), (router_fresh, world0)).
Proof.
  intros P.
  apply (proj1 (@unknown_item_raises_key_error P "printer" (router_fresh, world0)
                  eq_refl)).
Defined.





(** A whole search on a fresh router: the session is opened, the
    tickets are fetched, and the two whose name holds [abc] come back. *)
Example search_end_to_end :
  let P := platform_of ticket_server in
  let out := @Router.search P "ticket" {["criteria" := VList [VDict (by_name "abc")]]}
               (router_fresh, world0) in
  out.1 = Ok (VList [VDict (ticket "Printer ABC"); VDict (ticket "my abc")]) /\
  map req_url (log out.2.2)
  = ["http://glpi/apirest.php/initSession"; "http://glpi/apirest.php/Ticket"].
Proof. vm_compute. split; reflexivity. Qed.

Lemma init_conflicting_credentials_witness :
  let P := platform_of (constant_server empty_list_200) in
  @Service.__init__ P (VStr "http://glpi/apirest.php") VNone (Some "/Ticket")
    (VStr "bob") VNone (VStr "YOUR AUTH TOKEN") true None
  = Raise (GlpiInvalidArgument conflicting_credentials).
Proof.
  intros P.
  apply (@init_conflicting_credentials P (VStr "http://glpi/apirest.php") VNone
           (Some "/Ticket") (VStr "bob") VNone (VStr "YOUR AUTH TOKEN") true None).
  - intros [=].
  - left. intros [=].
Defined.

Lemma init_builds_usable_client_witness :
  Service.app_token client_with_session ≠ VNone /\
  Service.uri (Service.with_session VNone client_with_session) = Some "/Ticket".
Proof.
  pose (P := platform_of (constant_server empty_list_200)).
  destruct (@init_builds_usable_client P (VStr "http://glpi/apirest.php") (VStr "app")
              (Some "/Ticket") VNone VNone (VStr "auth") false None
              (Service.with_session VNone client_with_session) eq_refl)
    as (Happ & _ & _ & Huri).
  split; [exact Happ | exact Huri].
Defined.

Lemma init_explicit_credentials_first_witness :
  let P := platform_of (constant_server empty_list_200) in
  @Service.__init__ P (VStr "http://glpi/apirest.php") (VStr "app") (Some "/Ticket")
    VNone VNone (VStr "auth") true (Some "glpi")
  = @Service.__init__ P (VStr "http://glpi/apirest.php") (VStr "app") (Some "/Ticket")
      VNone VNone (VStr "auth") false (Some "glpi").
Proof.
  intros P.
  apply (@init_explicit_credentials_first P).
  left. split; [reflexivity | intros [=]].
Defined.

Lemma set_session_token_stores_witness :
  let P := platform_of ticket_server in
  (@Service.set_session_token P (client_without_session, world0)).1 = Ok true /\
  Service.session (@Service.set_session_token P (client_without_session, world0)).2.1
  = VStr "tok".
Proof.
  intros P.
  rewrite (@set_session_token_stores P client_without_session world0
             "http://glpi/apirest.php" session_200 (VStr "tok")
             eq_refl eq_refl eq_refl).
  split; reflexivity.
Defined.

Lemma set_session_token_fails_witness :
  let P := platform_of (constant_server not_json_500) in
  (@Service.set_session_token P (client_without_session, world0)).1
  = Raise (WrappedException "Unable to init session in GLPI server: " ValueError).
Proof.
  intros P.
  destruct (@set_session_token_fails P client_without_session world0
              "http://glpi/apirest.php" eq_refl) as [Hfail _].
  by rewrite (Hfail not_json_500 ValueError eq_refl eq_refl).
Defined.

Lemma get_session_token_idempotent_witness :
  let P := platform_of ticket_server in
  let st1 := (@Service.get_session_token P (client_without_session, world0)).2 in
  @Service.get_session_token P st1 = (Ok (VStr "tok"), st1).
Proof.
  intros P st1.
  apply (@get_session_token_idempotent P (client_without_session, world0) st1
           (VStr "tok")).
  - reflexivity.
  - intros [=].
Defined.

Lemma request_without_session_stops_witness :
  let P := platform_of down_server in
  let out := @Service.request P "GET" (Some "/Ticket") false ∅
               VNone VNone VNone VNone ∅ (client_without_session, world0) in
  out.1 = Raise (WrappedException "Unable to get Session token. ERROR: " TransportError) /\
  map req_url (log out.2.2) = ["http://glpi/apirest.php/initSession"].
Proof.
  intros P.
  destruct (@request_without_session_stops P "GET" (Some "/Ticket") false ∅
              VNone VNone VNone VNone ∅ client_without_session world0
              "http://glpi/apirest.php/Ticket" TransportError
              (@Service.set_session_token P (client_without_session, world0)).2
              eq_refl eq_refl eq_refl) as [Hreq _].
  rewrite Hreq. split; reflexivity.
Defined.

Lemma request_unauthorized_witness :
  let P := platform_of (constant_server denied_401) in
  (@Service.request P "GET" (Some "/Ticket") true ∅
     VNone VNone VNone VNone ∅ (client_with_session, world0)).1
  = Raise (GlpiException Service.unauthorized).
Proof.
  intros P.
  apply (@request_unauthorized P "GET" (Some "/Ticket") true ∅
           VNone VNone VNone VNone ∅ (client_with_session, world0)
           (client_with_session, world0) "http://glpi/apirest.php/Ticket" denied_401);
    reflexivity.
Defined.

Lemma request_success_witness :
  let P := platform_of (constant_server empty_list_200) in
  (@Service.request P "GET" (Some "/Ticket") false ∅
     VNone VNone VNone VNone ∅ (client_with_session, world0)).1
  = Ok (Resp empty_list_200).
Proof.
  intros P.
  assert (is_2xx (status_code empty_list_200)) as H2 by (unfold is_2xx; simpl; lia).
  destruct (@request_success P "GET" (Some "/Ticket") false ∅
              VNone VNone VNone VNone ∅ (client_with_session, world0)
              (client_with_session, world0) "http://glpi/apirest.php/Ticket"
              empty_list_200 eq_refl eq_refl eq_refl H2) as [Hraw _].
  by apply Hraw.
Defined.

Lemma bad_request_text_fields : text_fields bad_request_body.
Proof.
  intros k v Hin Hk.
  repeat (apply elem_of_cons in Hin as [-> | Hin]);
    try (by apply elem_of_nil in Hin);
    vm_compute in Hk; try discriminate; injection Hk as <-; eauto.
Qed.

Lemma get_error_message_composed_witness :
  Service._get_error_message bad_request_400
  = "Error: Bad request, Description: no such field, Code: 400".
Proof.
  rewrite (get_error_message_composed bad_request_400 bad_request_body
             eq_refl bad_request_text_fields).
  reflexivity.
Defined.

Lemma router_get_non_integer_witness :
  let P := platform_of (constant_server empty_list_200) in
  let out := @Router.get P "knowbase" (VStr "seven") (router_with_session, world0) in
  out.1 = Ok (VDict {["error_message" :=
                      VStr "Unale to get /knowbaseitem ID [seven]"]}) /\
  log out.2.2 = [].
Proof.
  intros P.
  destruct (@router_get_non_integer P "knowbase" "/knowbaseitem" (VStr "seven")
              client_with_session (router_with_session, world0)
              eq_refl eq_refl eq_refl) as (Hout & Hworld & _).
  cbv zeta. rewrite Hout, Hworld. split; reflexivity.
Defined.

Lemma search_options_request_witness :
  let P := platform_of (constant_server empty_list_200) in
  let out := @Router.search_options P "Ticket" (router_with_session, world0) in
  map req_url (log out.2.2) = ["http://glpi/apirest.php/listSearchOptions/Ticket"].
Proof.
  intros P.
  destruct (@search_options_request P "Ticket" "/listSearchOptions"
              "http://glpi/apirest.php" client_with_session
              (router_with_session, world0) eq_refl eq_refl eq_refl eq_refl)
    as (_ & _ & req & Hlog & _ & Hurl & _).
  cbv zeta. rewrite Hlog. simpl. by rewrite Hurl.
Defined.

Lemma init_item_keeps_coherent_witness :
  let P := platform_of ticket_server in
  coherent (@Router.init_item P "ticket" (router_fresh, world0)).2.1.
Proof.
  intros P.
  apply (@init_item_keeps_coherent P "ticket" (router_fresh, world0)).
  intros c Hc. discriminate Hc.
Defined.

Lemma router_without_token_soft_fails_witness :
  let P := platform_of ticket_server in
  let out := @Router.get_all P "ticket" (router_without_token, world0) in
  out.1 = Ok (Router.message_error get_failed) /\
  log out.2.2 = [] /\
  stdout out.2.2 = [init_failed].
Proof.
  intros P.
  rewrite (@router_without_token_soft_fails P "ticket" "/Ticket" router_without_token
             world0 eq_refl eq_refl eq_refl).
  repeat split.
Defined.

Lemma router_soft_fails_once_witness :
  let P := platform_of down_server in
  let out1 := @Router.get_all P "ticket" (router_fresh, world0) in
  let out2 := @Router.get_all P "ticket" out1.2 in
  out1.1 = Ok (Router.message_error get_failed) /\
  out2.1 = Raise (WrappedException "Unable to get Session token. ERROR: "
                    TransportError).
Proof.
  intros P.
  assert (usable_token (Router.auth_token router_fresh)) as Htok
    by (split; intros [=]).
  assert (Router.app_token router_fresh ≠ VNone) as Happ by (intros [=]).
  destruct (@router_soft_fails_once P "ticket" "/Ticket" "http://glpi/apirest.php"
              router_fresh world0 TransportError eq_refl eq_refl Htok Happ eq_refl
              (fun _ _ => eq_refl)) as (H1 & _ & H2).
  split; [exact H1 | exact H2].
Defined.

Lemma router_first_call_opens_session_witness :
  let P := platform_of ticket_server in
  let out := @Router.get_all P "ticket" (router_fresh, world0) in
  Router.api_session out.2.1 = VStr "tok" /\
  map req_url (log out.2.2)
  = ["http://glpi/apirest.php/initSession"; "http://glpi/apirest.php/Ticket"].
Proof.
  intros P.
  assert (usable_token (Router.auth_token router_fresh)) as Htok
    by (split; intros [=]).
  assert (Router.app_token router_fresh ≠ VNone) as Happ by (intros [=]).
  assert (VStr "tok" ≠ VNone) as Hsome by (intros [=]).
  destruct (@router_first_call_opens_session P "ticket" "/Ticket"
              "http://glpi/apirest.php" router_fresh world0 session_200 (VStr "tok")
              eq_refl eq_refl Htok Happ eq_refl eq_refl eq_refl Hsome)
    as (Hsess & _ & req & Hlog & _ & Hurl & _).
  cbv zeta. split; [exact Hsess|]. rewrite Hlog. simpl. by rewrite Hurl.
Defined.

Lemma set_attributes_merges_witness :
  let P := platform_of ticket_server in
  let it := Item.__init__ None in
  let out := @Item.set_attributes P 1%nat (it, two_dicts) in
  out.1 = Ok None /\
  Item.deref (Item.data it) out.2.2
  = <["name" := VStr "new"]> {["urgency" := VInt 3]}.
Proof.
  intros P it.
  rewrite (@set_attributes_merges P 1%nat
             (<["name" := VStr "new"]> {["urgency" := VInt 3]})
             {["name" := VStr "old"]} it two_dicts eq_refl eq_refl).
  split; [reflexivity|]. vm_compute. reflexivity.
Defined.

Lemma default_data_is_shared_witness :
  let P := platform_of ticket_server in
  let one := Item.__init__ None in
  let other := Item.__init__ None in
  (Item.get_attribute "name"
     (other, (Item.set_attribute "name" (VStr "printer") (one, Item.heap0)).2.2)).1
  = Ok (VStr "printer").
Proof.
  intros P.
  exact (proj1 (@default_data_is_shared "name" (VStr "printer") Item.heap0 ∅ eq_refl)).
Defined.

Lemma unset_attributes_clears_witness :
  let it := Item.__init__ None in
  (Item.get_attribute "name" (Item.unset_attributes (it, two_dicts)).2).1 = Ok VNone /\
  (Item.unset_attributes (it, two_dicts)).2.2 !! 0%nat = Some {["name" := VStr "old"]}.
Proof.
  intros it.
  destruct (@unset_attributes_clears it two_dicts {["name" := VStr "old"]} eq_refl)
    as (_ & Hread & Hold).
  split; [apply Hread | exact Hold].
Defined.

Lemma get_stream_is_get_payload_witness :
  let P := platform_of ticket_server in
  (@Item.get_stream P (Item.__init__ None, two_dicts)).1
  = Ok (@Service.get_payload P {["name" := VStr "old"]}).
Proof.
  intros P.
  by rewrite (@get_stream_is_get_payload P (Item.__init__ None) two_dicts eq_refl).
Defined.

(** After a [set_item] from outside, the router holds the path of the
    item while its client is still bound to the former one: readiness
    finds nothing to switch, and the client answers from the path it
    has. *)
Example get_after_set_item :
  let P := platform_of (constant_server empty_list_200) in
  let st := (Router.set_item "knowbase" (router_with_session, world0)).2 in
  let out := @Router.get P "knowbase" (VStr "seven") st in
  out.1 = Ok (VDict {["error_message" := VStr "Unale to get /Ticket ID [seven]"]}) /\
  Router.item_uri out.2.1 = Some "/knowbaseitem" /\
  (Service.uri <$> Router.api_rest out.2.1) = Some (Some "/Ticket").
Proof. vm_compute. repeat split. Qed.

Example search_options_after_set_item :
  let P := platform_of (constant_server empty_list_200) in
  let st := (Router.set_item "listSearchOptions" (router_with_session, world0)).2 in
  let out := @Router.search_options P "Ticket" st in
  map req_url (log out.2.2) = ["http://glpi/apirest.php/Ticket/Ticket"].
Proof. vm_compute. reflexivity. Qed.
